(** * AI accounting assistant: the classification-and-ledger core of [app.py]

    A shallow embedding of [AIAccountant] (intent routing, amount extraction,
    the two recording handlers and the three reports) and the properties its
    specification states about it.

    Conventions of the embedding.
    - Text is a [string] of ASCII characters: [str.lower] acts on [A-Z], the
      regex class for digits is [0-9] and slices count characters.
    - Numbers.  A captured literal is read by [float]; the model keeps the
      exact decimal it denotes ([dec]).  A value of the [DECIMAL(10,2)]
      column is a number of cents in [Z], and [float] of such a value, and of
      the sums the reports print, is taken as exact.  Where the source rounds,
      the rule of that place is applied to the exact value: [format] rounds
      to nearest with ties to even, the column rounds to nearest with ties
      away from zero and rejects a value that needs more than ten digits.
      The rounding error of binary floating point is outside the model.
    - Handlers run in a state-and-exception monad over [world]: the backend
      behind [DATABASE_URL], the rows of [transactions], the SERIAL counter
      and the clock.  What [print] writes is not part of a reply and is left
      out. *)

From Stdlib Require Import ZArith Ascii DecimalString DecimalN.
From stdpp Require Import base list strings gmap sorting.

Local Open Scope Z_scope.

(** ** Text primitives *)

Module Text.

(** [str.lower] on one ASCII character. *)
Definition lower_ascii (c : ascii) : ascii :=
  let n := nat_of_ascii c in
  if ((65 <=? n)%nat && (n <=? 90)%nat)%bool then ascii_of_nat (n + 32) else c.

(** [s.lower()]. *)
Fixpoint lower (s : string) : string :=
  match s with
  | EmptyString => EmptyString
  | String c s' => String (lower_ascii c) (lower s')
  end.

(** [s.startswith(p)]. *)
Fixpoint startswith (p s : string) : bool :=
  match p, s with
  | EmptyString, _ => true
  | String a p', String b s' => if Ascii.eqb a b then startswith p' s' else false
  | String _ _, EmptyString => false
  end.

(** [sub in s]: substring test. *)
Fixpoint isin (sub s : string) : bool :=
  if startswith sub s then true
  else match s with
       | EmptyString => false
       | String _ s' => isin sub s'
       end.

(** [any(word in s for word in words)]. *)
Definition any_in (words : list string) (s : string) : bool :=
  existsb (fun word => isin word s) words.

(** [s[:n]]. *)
Fixpoint slice_to (n : nat) (s : string) : string :=
  match n, s with
  | S n', String c s' => String c (slice_to n' s')
  | _, _ => EmptyString
  end.

Definition is_digit (c : ascii) : bool :=
  let n := nat_of_ascii c in ((48 <=? n)%nat && (n <=? 57)%nat)%bool.

Definition digit_value (c : ascii) : Z := Z.of_nat (nat_of_ascii c) - 48.

Definition newline : string := String (ascii_of_nat 10) EmptyString.

(** Text of the ASCII range, where a byte is a character: there [lower] is
    [str.lower], the digits are 0 to 9 and slices count characters. *)
Fixpoint is_ascii (s : string) : bool :=
  match s with
  | EmptyString => true
  | String c s' => (nat_of_ascii c <? 128)%nat && is_ascii s'
  end.

(** Text without the NUL character, which the database driver refuses in a
    string parameter. *)
Fixpoint no_nul (s : string) : bool :=
  match s with
  | EmptyString => true
  | String c s' => (1 <=? nat_of_ascii c)%nat && no_nul s'
  end.

(** ASCII text without NUL. *)
Definition is_plain (s : string) : bool := is_ascii s && no_nul s.

End Text.

(** ** The regular-expression fragment used by [re.search]

    A backtracking matcher with Python's semantics (leftmost start, greedy
    quantifiers, first successful alternative) for patterns made of single
    character atoms under [?], [*], [+], with one capturing group that runs
    to the end of the pattern. *)

Module Re.

Inductive atom := Lit (c : ascii) | AnyDigit.
Inductive quant := Once | Optional | Star | Plus.
Record item := Item { item_atom : atom; item_quant : quant }.

(** [before(group)]: what precedes the group and the group's body. *)
Record pattern := Pattern { before : list item; group1 : list item }.

Definition atom_matches (a : atom) (c : ascii) : bool :=
  match a with
  | Lit c' => Ascii.eqb c' c
  | AnyDigit => Text.is_digit c
  end.

Section Matcher.
Context {R : Type}.

(** Greedy [a*]: take as many as possible, give one back at a time while the
    continuation fails. *)
Fixpoint star (a : atom) (s : string) (k : string -> option R) : option R :=
  match s with
  | String c s' =>
      if atom_matches a c then
        match star a s' k with
        | Some r => Some r
        | None => k s
        end
      else k s
  | EmptyString => k s
  end.

Definition once (a : atom) (s : string) (k : string -> option R) : option R :=
  match s with
  | String c s' => if atom_matches a c then k s' else None
  | EmptyString => None
  end.

Fixpoint match_items (its : list item) (s : string)
    (k : string -> option R) : option R :=
  match its with
  | [] => k s
  | Item a q :: its' =>
      let rest := fun s' => match_items its' s' k in
      match q with
      | Once => once a s rest
      | Optional =>
          match once a s rest with
          | Some r => Some r
          | None => rest s
          end
      | Star => star a s rest
      | Plus => once a s (fun s' => star a s' rest)
      end
  end.

End Matcher.

(** The longest run of [a] at the start of [s], and what follows it. *)
Fixpoint run (a : atom) (s : string) : string :=
  match s with
  | String c s' => if atom_matches a c then String c (run a s') else EmptyString
  | EmptyString => EmptyString
  end.

Fixpoint skip (a : atom) (s : string) : string :=
  match s with
  | String c s' => if atom_matches a c then skip a s' else s
  | EmptyString => EmptyString
  end.

(** The text consumed between two suffixes of the same string. *)
Definition consumed (from to : string) : string :=
  Text.slice_to (String.length from - String.length to) from.

(** A match anchored at the start of [s]; the result is [group(1)]. *)
Definition match_here (p : pattern) (s : string) : option string :=
  match_items (before p) s (fun s1 =>
    match_items (group1 p) s1 (fun s2 => Some (consumed s1 s2))).

(** [re.search(p, s)]: the leftmost position with a match; [None] is
    Python's [None].  The result is [group(1)] of the match object. *)
Fixpoint search (p : pattern) (s : string) : option string :=
  match match_here p s with
  | Some g => Some g
  | None =>
      match s with
      | EmptyString => None
      | String _ s' => search p s'
      end
  end.

End Re.

(** The pattern of [record_expense] and [record_income]: an optional dollar
    sign, then the group: one or more digits, an optional dot, any number of
    digits. *)
Definition amount_pattern : Re.pattern :=
  Re.Pattern
    [Re.Item (Re.Lit "$"%char) Re.Optional]
    [Re.Item Re.AnyDigit Re.Plus; Re.Item (Re.Lit "."%char) Re.Optional;
     Re.Item Re.AnyDigit Re.Star].

(** [amount_match = re.search(pattern, text)], read through [group(1)]. *)
Definition amount_match (text : string) : option string :=
  Re.search amount_pattern text.

(** ** Numbers *)

(** An exact decimal [mant / 10^scale]: the value of a decimal literal. *)
Record dec := Dec { mant : Z; scale : nat }.

Module Num.

(** Reads a run of digits, accumulating their value and their count. *)
Fixpoint read_digits (s : string) (acc : Z) (n : nat) : Z * nat * string :=
  match s with
  | String c s' =>
      if Text.is_digit c then read_digits s' (10 * acc + Text.digit_value c) (S n)
      else (acc, n, s)
  | EmptyString => (acc, n, s)
  end.

(** [float(s)] on unsigned decimal literals: digits, an optional dot, digits,
    with a digit somewhere.  [None] is [ValueError]; the other literals
    [float] reads (signs, exponents, [inf]) lie outside what the amount
    pattern can capture and are not needed. *)
Definition float_of_string (s : string) : option dec :=
  let '(i, ni, r) := read_digits s 0 0 in
  match r with
  | EmptyString => if (ni =? 0)%nat then None else Some (Dec i 0)
  | String c r' =>
      if Ascii.eqb c "."%char then
        let '(m, nf, r'') := read_digits r' i 0 in
        match r'' with
        | EmptyString => if (ni + nf =? 0)%nat then None else Some (Dec m nf)
        | String _ _ => None
        end
      else None
  end.

(** [n / d] rounded to the nearest integer, ties away from zero
    (PostgreSQL [numeric]); [d] positive. *)
Definition round_half_away (n d : Z) : Z :=
  Z.sgn n * ((2 * Z.abs n + d) / (2 * d)).

(** [n / d] rounded to the nearest integer, ties to even (Python's [format]);
    [d] positive. *)
Definition round_half_even (n d : Z) : Z :=
  let q := n / d in
  let r := n mod d in
  if 2 * r <? d then q
  else if d <? 2 * r then q + 1
  else if Z.even q then q else q + 1.

(** The value in cents under a rounding rule. *)
Definition to_cents (round : Z -> Z -> Z) (x : dec) : Z :=
  if (scale x <=? 2)%nat then mant x * 10 ^ Z.of_nat (2 - scale x)
  else round (mant x) (10 ^ Z.of_nat (scale x - 2)).

(** Storing a value in a [DECIMAL(10,2)] column: rounded to two fractional
    digits; ten digits of precision leave eight before the point, a larger
    value is rejected (numeric field overflow), here [None]. *)
Definition numeric_10_2 (x : dec) : option Z :=
  let c := to_cents round_half_away x in
  if Z.abs c <? 10 ^ 10 then Some c else None.

Definition digit_char (d : Z) : ascii := ascii_of_nat (48 + Z.to_nat d).

Definition string_of_nonneg (n : Z) : string :=
  NilZero.string_of_uint (N.to_uint (Z.to_N n)).

Definition two_digits (n : Z) : string :=
  String (digit_char (n / 10)) (String (digit_char (n mod 10)) EmptyString).

(** A number of cents printed with two decimals, as [:.2f] prints it. *)
Definition render_cents (c : Z) : string :=
  (if c <? 0 then "-" else "") +:+
  string_of_nonneg (Z.abs c / 100) +:+ "." +:+ two_digits (Z.abs c mod 100).

(** [f"{x:.2f}"] for a parsed amount. *)
Definition format_2f (x : dec) : string :=
  render_cents (to_cents round_half_even x).

End Num.

(** ** The ledger *)

(** A [TIMESTAMP] value, as the [datetime] the driver returns. *)
Record datetime := Datetime {
  year : Z; month : Z; day : Z;
  hour : Z; minute : Z; second : Z; microsecond : Z }.

(** Position on the time line; it orders calendar-valid values as [datetime]
    comparison and [ORDER BY date] do. *)
Definition timestamp (d : datetime) : Z :=
  (((((year d * 13 + month d) * 32 + day d) * 24 + hour d) * 60 + minute d) * 60
   + second d) * 1000000 + microsecond d.

(** [date.strftime("%m/%d")]. *)
Definition strftime_md (d : datetime) : string :=
  Num.two_digits (month d) +:+ "/" +:+ Num.two_digits (day d).

(** A row of table [transactions] ([row_id] is column [id]; [amount] is in
    cents). *)
Record transaction := Transaction {
  row_id : Z;
  date : datetime;
  description : string;
  debit_account : string;
  credit_account : string;
  amount : Z;
  ai_categorized : bool }.

(** What [DATABASE_URL] leads to. *)
Inductive backend :=
| NoDatabaseUrl   (* the variable is unset: [get_db_connection] returns None *)
| Unreachable     (* [psycopg2.connect] raises *)
| Reachable.

Record world := World {
  database : backend;
  transactions : list transaction;
  next_id : Z;          (* the SERIAL sequence *)
  now : datetime }.     (* what [datetime.now()] returns *)

(** ** Exceptions and the handler monad *)

Inductive exn :=
| AttributeError          (* [None.cursor()] *)
| OperationalError        (* connection failure *)
| NumericValueOutOfRange  (* the backend rejects the value *)
| ValueError
| APIError.               (* any failure of the model call *)

Inductive outcome (A : Type) := Return (a : A) | Raise (e : exn).
Arguments Return {A} a.
Arguments Raise {A} e.

Definition M (A : Type) : Type := world -> outcome A * world.

Definition ret {A} (a : A) : M A := fun w => (Return a, w).
Definition raise {A} (e : exn) : M A := fun w => (Raise e, w).
Definition bind {A B} (m : M A) (k : A -> M B) : M B :=
  fun w => match m w with
           | (Return a, w') => k a w'
           | (Raise e, w') => (Raise e, w')
           end.

(** [try: body  except Exception: handler]. *)
Definition try_except {A} (body : M A) (handler : exn -> M A) : M A :=
  fun w => match body w with
           | (Return a, w') => (Return a, w')
           | (Raise e, w') => handler e w'
           end.

Notation "x <- m ;; k" := (bind m (fun x => k))
  (at level 100, m at next level, right associativity).
Notation "m ;; k" := (bind m (fun _ => k))
  (at level 100, right associativity).

(** ** Storage operations *)

Inductive connection := Conn.

(** [get_db_connection()]: a connection when [DATABASE_URL] is set, [None]
    (after a printed notice) when it is not. *)
Definition get_db_connection : M (option connection) :=
  fun w => match database w with
           | NoDatabaseUrl => (Return None, w)
           | Unreachable => (Raise OperationalError, w)
           | Reachable => (Return (Some Conn), w)
           end.

(** [conn.cursor()]; on [None] the attribute lookup fails. *)
Definition cursor (conn : option connection) : M unit :=
  match conn with
  | Some _ => ret tt
  | None => raise AttributeError
  end.

Definition datetime_now : M datetime := fun w => (Return (now w), w).

(** [cursor.execute(INSERT ...)] followed by [conn.commit()]: one row is
    appended, or the backend rejects the value and nothing is stored. *)
Definition execute_insert (date : datetime) (description debit credit : string)
    (amount : dec) (ai_categorized : bool) : M unit :=
  fun w => match Num.numeric_10_2 amount with
           | Some cents =>
               (Return tt,
                World (database w)
                      (transactions w ++
                       [Transaction (next_id w) date description debit credit
                                    cents ai_categorized])
                      (next_id w + 1) (now w))
           | None => (Raise NumericValueOutOfRange, w)
           end.

(** [cursor.fetchall()] after a SELECT: the query evaluated on the table. *)
Definition fetchall {A} (query : list transaction -> list A) : M (list A) :=
  fun w => (Return (query (transactions w)), w).

(** [float(amount_match.group(1))]. *)
Definition float_ (s : string) : M dec :=
  match Num.float_of_string s with
  | Some x => ret x
  | None => raise ValueError
  end.

(** ** Recording handlers *)

Definition no_amount_expense : string :=
  "I couldn't find an amount. Please include a number like '$25' or '25.50'".

Definition no_amount_income : string :=
  "I couldn't find an amount. Please include a number.".

(** The category chosen by [record_expense]. *)
Definition categorize (text : string) : string :=
  if Text.any_in ["food"; "lunch"; "dinner"; "coffee"] (Text.lower text)
  then "Expenses:Food"
  else if Text.any_in ["gas"; "uber"; "taxi"; "parking"] (Text.lower text)
  then "Expenses:Transport"
  else "Expenses:General".

Definition record_expense (text : string) : M string :=
  match amount_match text with
  | None => ret no_amount_expense
  | Some group_1 =>
      amount <- float_ group_1 ;;
      let category := categorize text in
      conn <- get_db_connection ;;
      cursor conn ;;
      date <- datetime_now ;;
      execute_insert date text category "Assets:Cash" amount true ;;
      ret ("✓ Recorded: " +:+ category +:+ " $" +:+ Num.format_2f amount +:+
           Text.newline +:+ "Description: " +:+ text)
  end.

Definition record_income (text : string) : M string :=
  match amount_match text with
  | None => ret no_amount_income
  | Some group_1 =>
      amount <- float_ group_1 ;;
      conn <- get_db_connection ;;
      cursor conn ;;
      date <- datetime_now ;;
      execute_insert date text "Assets:Bank" "Revenue:Sales" amount true ;;
      ret ("✓ Recorded income: $" +:+ Num.format_2f amount +:+
           Text.newline +:+ "Description: " +:+ text)
  end.

(** ** Reports *)

(** [SUM(amount)] over a list of rows. *)
Definition sum_amount (rows : list transaction) : Z :=
  foldr Z.add 0 (amount <$> rows).

(** [SELECT key, SUM(amount) FROM rows GROUP BY key]: one row per distinct
    key (SQL leaves their order open). *)
Definition group_sum (key : transaction -> string) (rows : list transaction)
    : list (string * Z) :=
  (fun a => (a, sum_amount (filter (fun t => key t = a) rows)))
    <$> remove_dups (key <$> rows).

(** The query of [get_balances]: debit totals, then negated credit totals. *)
Definition balances_query (rows : list transaction) : list (string * Z) :=
  group_sum debit_account rows ++
  ((fun r => (r.1, - r.2)) <$> group_sum credit_account rows).

(** [balances[account] = balances.get(account, 0) + float(amount)]. *)
Definition accumulate (balances : gmap string Z) (row : string * Z)
    : gmap string Z :=
  <[row.1 := default 0 (balances !! row.1) + row.2]> balances.

(** Python's order on [(str, float)] tuples. *)
Definition item_le (x y : string * Z) : Prop :=
  String.le x.1 y.1 /\ (x.1 = y.1 -> x.2 <= y.2).

#[global] Instance item_le_dec : RelDecision item_le.
Proof. intros x y. unfold item_le. apply _. Defined.

Definition balances_header : string := "**Account Balances:**" +:+ Text.newline.

(** One iteration of the rendering loop of [get_balances]. *)
Definition balance_line (item : string * Z) : string :=
  if item.2 =? 0 then ""
  else item.1 +:+ ": $" +:+ Num.render_cents (Z.abs item.2) +:+ " " +:+
       (if 0 <? item.2 then "DR" else "CR") +:+ Text.newline.

Definition get_balances : M string :=
  conn <- get_db_connection ;;
  cursor conn ;;
  rows <- fetchall balances_query ;;
  let balances := foldl accumulate ∅ rows in
  ret (foldl (fun result item => result +:+ balance_line item)
             balances_header
             (merge_sort item_le (map_to_list balances))).

(** [ORDER BY date DESC]. *)
Definition newest_first (a b : transaction) : Prop :=
  timestamp (date b) <= timestamp (date a).

#[global] Instance newest_first_dec : RelDecision newest_first.
Proof. intros a b. unfold newest_first. apply _. Defined.

(** The query of [get_recent_transactions]. *)
Definition recent_query (rows : list transaction) : list transaction :=
  take 5 (merge_sort newest_first rows).

Definition recent_header : string := "**Recent Transactions:**" +:+ Text.newline.

Definition recent_line (row : transaction) : string :=
  strftime_md (date row) +:+ ": " +:+ Text.slice_to 30 (description row) +:+
  "... $" +:+ Num.render_cents (amount row) +:+ Text.newline.

Definition get_recent_transactions : M string :=
  conn <- get_db_connection ;;
  cursor conn ;;
  rows <- fetchall recent_query ;;
  ret (foldl (fun result row => result +:+ recent_line row) recent_header rows).

(** [ORDER BY total DESC]. *)
Definition largest_first (x y : string * Z) : Prop := y.2 <= x.2.

#[global] Instance largest_first_dec : RelDecision largest_first.
Proof. intros x y. unfold largest_first. apply _. Defined.

(** [debit_account LIKE 'Expenses:%']. *)
Definition is_expense_row (t : transaction) : Prop :=
  Text.startswith "Expenses:" (debit_account t) = true.

#[global] Instance is_expense_row_dec t : Decision (is_expense_row t).
Proof. unfold is_expense_row. apply _. Defined.

(** The query of [get_expenses_summary]. *)
Definition expenses_query (rows : list transaction) : list (string * Z) :=
  merge_sort largest_first (group_sum debit_account (filter is_expense_row rows)).

Definition expenses_header : string := "**Expense Summary:**" +:+ Text.newline.

Definition expense_line (row : string * Z) : string :=
  row.1 +:+ ": $" +:+ Num.render_cents row.2 +:+ Text.newline.

Definition total_line (total : Z) : string :=
  Text.newline +:+ "**Total Expenses: $" +:+ Num.render_cents total +:+ "**".

(** The loop of [get_expenses_summary]: the text so far and the running
    total. *)
Definition summary_loop (rows : list (string * Z)) : string * Z :=
  foldl (fun st row => (st.1 +:+ expense_line row, st.2 + row.2))
        (expenses_header, 0) rows.

Definition get_expenses_summary : M string :=
  conn <- get_db_connection ;;
  cursor conn ;;
  rows <- fetchall expenses_query ;;
  let st := summary_loop rows in
  ret (st.1 +:+ total_line st.2).

Definition handle_query (text : string) : M string :=
  if Text.isin "balance" (Text.lower text) then get_balances
  else if Text.isin "expense" (Text.lower text) then get_expenses_summary
  else get_recent_transactions.

(** ** The router *)

(** [self.client]: absent without an API key; otherwise the model call,
    which answers with a text or raises. *)
Record AIAccountant := { client : option (string -> outcome string) }.

Definition messages_create (f : string -> outcome string) (user_input : string)
    : M string :=
  fun w => (f user_input, w).

Definition guidance : string :=
  "I can help you record transactions or check balances. Try saying 'I spent $X on Y' or 'Show me my expenses'".

(** The keyword fallback at the end of [process_natural_language]. *)
Definition pattern_matching (user_input : string) : M string :=
  let user_input_lower := Text.lower user_input in
  if Text.any_in ["bought"; "paid"; "spent"] user_input_lower
  then record_expense user_input
  else if Text.any_in ["received"; "earned"; "got paid"] user_input_lower
  then record_income user_input
  else if Text.any_in ["show"; "what"; "how much"; "balance"] user_input_lower
  then handle_query user_input
  else ret guidance.

(** The body of the [try] block, after the model has answered. *)
Definition dispatch_ai (ai_response user_input : string) : M string :=
  if Text.isin "EXPENSE" ai_response then record_expense user_input
  else if Text.isin "INCOME" ai_response then record_income user_input
  else handle_query user_input.

Definition process_natural_language (self : AIAccountant) (user_input : string)
    : M string :=
  match client self with
  | Some model =>
      try_except
        (ai_response <- messages_create model user_input ;;
         dispatch_ai ai_response user_input)
        (fun _ => pattern_matching user_input)
  | None => pattern_matching user_input
  end.

(** [chat_with_accountant(message, history)]. *)
Definition chat_with_accountant (self : AIAccountant) (message : string)
    (history : list (string * string)) : M string :=
  process_natural_language self message.

(** A chat request with the environment it meets: the state of the backend
    and the time. *)
Record request := Request {
  backend_then : backend;
  time_then : datetime;
  message : string }.

(** The table after a session: each request is served in turn on the rows
    the earlier ones left. *)
Fixpoint serve (self : AIAccountant) (session : list request) (w : world)
    : world :=
  match session with
  | [] => w
  | r :: session' =>
      let w1 := World (backend_then r) (transactions w) (next_id w) (time_then r) in
      serve self session' (chat_with_accountant self (message r) [] w1).2
  end.

(** ** Constants, construction and start-up *)

(** [COMMON_ACCOUNTS]: the quick-reference chart of accounts. *)
Definition COMMON_ACCOUNTS : gmap string (list string) :=
  list_to_map
    [("income", ["Revenue:Sales"; "Revenue:Services"; "Revenue:Other"]);
     ("expenses", ["Expenses:Food"; "Expenses:Transport"; "Expenses:Office";
                   "Expenses:Marketing"]);
     ("assets", ["Assets:Cash"; "Assets:Bank"; "Assets:Receivables"]);
     ("liabilities", ["Liabilities:CreditCard"; "Liabilities:Loans"])].

(** [COMMON_ACCOUNTS[kind]]; a missing key gives no account. *)
Definition common (kind : string) : list string :=
  default [] (COMMON_ACCOUNTS !! kind).

(** [AIAccountant.__init__]: [api_key] is what [os.getenv] returned, and
    [anthropic key] the model call of a client made with that key.  An unset
    and an empty key are both false in [if api_key:]. *)
Definition AIAccountant_init (api_key : option string)
    (anthropic : string -> string -> outcome string) : AIAccountant :=
  match api_key with
  | Some (String c key) => {| client := Some (anthropic (String c key)) |}
  | Some EmptyString => {| client := None |}
  | None => {| client := None |}
  end.

(** The row [record_expense] inserts for [text] and the state after it. *)
Definition expense_row (text : string) (cents : Z) (w : world) : transaction :=
  Transaction (next_id w) (now w) text (categorize text) "Assets:Cash" cents true.

Definition income_row (text : string) (cents : Z) (w : world) : transaction :=
  Transaction (next_id w) (now w) text "Assets:Bank" "Revenue:Sales" cents true.

Definition stored (w : world) (row : transaction) : world :=
  World (database w) (transactions w ++ [row]) (next_id w + 1) (now w).

Definition expense_reply (text : string) (x : dec) : string :=
  "✓ Recorded: " +:+ categorize text +:+ " $" +:+ Num.format_2f x +:+
  Text.newline +:+ "Description: " +:+ text.

Definition income_reply (text : string) (x : dec) : string :=
  "✓ Recorded income: $" +:+ Num.format_2f x +:+
  Text.newline +:+ "Description: " +:+ text.

(** The database as [init_db] finds it at start-up: the table may not exist
    yet. *)
Record server := Server {
  server_backend : backend;
  table : option (list transaction) }.

(** [init_db()]: nothing without a connection; otherwise
    [CREATE TABLE IF NOT EXISTS], which creates an empty table when there is
    none and leaves an existing one alone. *)
Definition init_db (s : server) : outcome unit * server :=
  match server_backend s with
  | NoDatabaseUrl => (Return tt, s)
  | Unreachable => (Raise OperationalError, s)
  | Reachable => (Return tt, Server Reachable (Some (default [] (table s))))
  end.

(** ** Vocabulary of the specification *)

(** What the group captures when a match starts at a digit: the digits, and
    after a dot the digits that follow it. *)
Definition literal_at (s : string) : string :=
  Re.run Re.AnyDigit s +:+
  match Re.skip Re.AnyDigit s with
  | String c s' =>
      if Ascii.eqb c "." then "." +:+ Re.run Re.AnyDigit s' else ""
  | EmptyString => ""
  end.

(** The literal at the first digit of the text. *)
Fixpoint first_literal (s : string) : option string :=
  match s with
  | EmptyString => None
  | String c s' => if Text.is_digit c then Some (literal_at s) else first_literal s'
  end.

(** The amount a handler works with: the first match of the pattern, read as
    a number ([None]: no match). *)
Definition extract_amount (text : string) : option dec :=
  match amount_match text with
  | Some group_1 => Num.float_of_string group_1
  | None => None
  end.

Inductive Intent := Expense | Income | Query | Unknown.

(** The branch the keyword fallback takes. *)
Definition heuristic_intent (text : string) : Intent :=
  if Text.any_in ["bought"; "paid"; "spent"] (Text.lower text) then Expense
  else if Text.any_in ["received"; "earned"; "got paid"] (Text.lower text)
  then Income
  else if Text.any_in ["show"; "what"; "how much"; "balance"] (Text.lower text)
  then Query
  else Unknown.

(** The branch taken on a model answer. *)
Definition response_intent (ai_response : string) : Intent :=
  if Text.isin "EXPENSE" ai_response then Expense
  else if Text.isin "INCOME" ai_response then Income
  else Query.

(** The classifier in charge of a request: the model when it is configured
    and answers, the keywords otherwise. *)
Definition routed_intent (self : AIAccountant) (text : string) : Intent :=
  match client self with
  | Some model =>
      match model text with
      | Return ai_response => response_intent ai_response
      | Raise _ => heuristic_intent text
      end
  | None => heuristic_intent text
  end.

(** The handler an intent is dispatched to. *)
Definition handler_of (intent : Intent) (text : string) : M string :=
  match intent with
  | Expense => record_expense text
  | Income => record_income text
  | Query => handle_query text
  | Unknown => ret guidance
  end.

(** The reply of a recording handler that finds no amount. *)
Definition no_amount_reply (intent : Intent) : string :=
  match intent with
  | Expense => no_amount_expense
  | _ => no_amount_income
  end.

(** The exception a handler meets when it asks for the database. *)
Definition storage_exn (b : backend) : exn :=
  match b with
  | NoDatabaseUrl => AttributeError
  | _ => OperationalError
  end.

(** How a configured backend fails the insert of [x], when it does: it
    cannot be reached, or it rejects the value. *)
Definition insert_failure (b : backend) (x : dec) : option exn :=
  match b with
  | Unreachable => Some OperationalError
  | Reachable =>
      match Num.numeric_10_2 x with
      | Some _ => None
      | None => Some NumericValueOutOfRange
      end
  | NoDatabaseUrl => None
  end.

(** The state [w] behind a backend that cannot be reached. *)
Definition unreachable (w : world) : world :=
  World Unreachable (transactions w) (next_id w) (now w).

(** [w'] holds the rows of [w] followed by [new], under the same backend and
    clock. *)
Definition appended (w : world) (new : list transaction) (w' : world) : Prop :=
  transactions w' = transactions w ++ new /\
  database w' = database w /\ now w' = now w.

(** Debits minus credits of one account. *)
Definition balance_of (rows : list transaction) (account : string) : Z :=
  sum_amount (filter (fun t => debit_account t = account) rows) -
  sum_amount (filter (fun t => credit_account t = account) rows).

(** Total debited to one account. *)
Definition debit_total (rows : list transaction) (account : string) : Z :=
  sum_amount (filter (fun t => debit_account t = account) rows).

Definition concat_lines (lines : list string) : string :=
  foldr String.append "" lines.

Definition sum_Z (l : list Z) : Z := foldr Z.add 0 l.

(** The sum of the totals that query rows give for one account. *)
Definition total_for (account : string) (rows : list (string * Z)) : Z :=
  sum_Z ((filter (fun r => r.1 = account) rows).*2).

(** Strings over the digits, and strings free of them. *)
Fixpoint all_digits (s : string) : bool :=
  match s with
  | EmptyString => true
  | String c s' => Text.is_digit c && all_digits s'
  end.

Fixpoint no_digit (s : string) : bool :=
  match s with
  | EmptyString => true
  | String c s' => negb (Text.is_digit c) && no_digit s'
  end.

(** The value of a digit string read after [acc]. *)
Fixpoint digits_value_from (acc : Z) (s : string) : Z :=
  match s with
  | EmptyString => acc
  | String c s' => digits_value_from (10 * acc + Text.digit_value c) s'
  end.

Definition digits_value (s : string) : Z := digits_value_from 0 s.

(** The text after a match extends it neither with a digit nor, when the
    match has no dot yet, with a dot. *)
Definition stops (dot : bool) (rest : string) : bool :=
  match rest with
  | EmptyString => true
  | String c _ => negb (Text.is_digit c) && (dot || negb (Ascii.eqb c "."))
  end.

(** An amount literal: digits, then a dot and digits when [dot] is set. *)
Definition literal (ds : string) (dot : bool) (fs : string) : string :=
  ds +:+ (if dot then "." +:+ fs else "").

(** The number an amount literal denotes. *)
Definition literal_value (ds : string) (dot : bool) (fs : string) : dec :=
  if dot then Dec (digits_value (ds +:+ fs)) (String.length fs)
  else Dec (digits_value ds) 0.

(** ** Sample states *)

Definition t0 : datetime := Datetime 2024 3 7 9 30 0 0.

(** A reachable backend with an empty table. *)
Definition w0 : world := World Reachable [] 1 t0.

(** No [DATABASE_URL]. *)
Definition w_nodb : world := World NoDatabaseUrl [] 1 t0.

(** No API key: keywords only. *)
Definition keywords_only : AIAccountant := {| client := None |}.

(** A configured model that always answers [ai_response]. *)
Definition answering (ai_response : string) : AIAccountant :=
  {| client := Some (fun _ => Return ai_response) |}.

(** A configured model whose call always fails. *)
Definition failing_model : AIAccountant :=
  {| client := Some (fun _ => Raise APIError) |}.

(** The request is classified by the keywords: there is no model, or its
    call raises. *)
Definition keyword_path (self : AIAccountant) (text : string) : bool :=
  match client self with
  | None => true
  | Some model =>
      match model text with
      | Raise _ => true
      | Return _ => false
      end
  end.

(** Every description in the table is ASCII text. *)
Definition ascii_descriptions (rows : list transaction) : bool :=
  forallb (fun t => Text.is_ascii (description t)) rows.

(** Seven rows of March 2024, stored in an order that is neither the order
    of their dates nor the order of the totals of their accounts. *)
Definition on_day (d h : Z) : datetime := Datetime 2024 3 d h 0 0 0.

Definition sample_rows : list transaction :=
  [Transaction 1 (on_day 5 8) "I bought coffee for $4.50"
               "Expenses:Food" "Assets:Cash" 450 true;
   Transaction 2 (on_day 1 9) "I spent $45 on groceries"
               "Expenses:General" "Assets:Cash" 4500 true;
   Transaction 3 (on_day 2 12) "I paid $5000 to the contractor"
               "Expenses:General" "Assets:Cash" 500000 true;
   Transaction 4 (on_day 7 18) "I received $1200 today"
               "Assets:Bank" "Revenue:Sales" 120000 true;
   Transaction 5 (on_day 3 7) "I paid $12 for the taxi"
               "Expenses:Transport" "Assets:Cash" 1200 true;
   Transaction 6 (on_day 4 13) "I spent $8.25 on an uber"
               "Expenses:Transport" "Assets:Cash" 825 true;
   Transaction 7 (on_day 6 20) "I paid $30 for dinner with the whole team yesterday"
               "Expenses:Food" "Assets:Cash" 3000 true].

(** The sample rows behind a reachable backend, on the morning of the 8th. *)
Definition w_sample : world := World Reachable sample_rows 8 (on_day 8 9).

(** ** Vocabulary of the proofs *)

(** The head of [s] is not a digit. *)
Definition digit_free_head (s : string) : Prop :=
  match s with
  | String c _ => Text.is_digit c = false
  | EmptyString => True
  end.

(** What a request leaves behind: the same rows, or one more row whose amount
    is not negative. *)
Definition adds_nonneg (w w' : world) : Prop :=
  exists new, appended w new w' /\ Forall (fun t => 0 <= amount t) new /\
              (length new <= 1)%nat.

(** The line printed for an account, from its balance. *)
Definition account_line (rows : list transaction) (a : string) : string :=
  a +:+ ": $" +:+ Num.render_cents (Z.abs (balance_of rows a)) +:+ " " +:+
  (if 0 <? balance_of rows a then "DR" else "CR") +:+ Text.newline.

(** * Properties *)

(** ** Strings *)

Lemma str_app_cons c (s t : string) : String c s +:+ t = String c (s +:+ t).
Proof. reflexivity. Qed.

Lemma str_app_nil_r (s : string) : s +:+ "" = s.
Proof. induction s as [|c s IH]; [done|]. by rewrite str_app_cons, IH. Qed.

Lemma str_app_assoc (s t u : string) : (s +:+ t) +:+ u = s +:+ t +:+ u.
Proof. induction s as [|c s IH]; [done|]. by rewrite !str_app_cons, IH. Qed.

Lemma str_length_app (s t : string) :
  String.length (s +:+ t) = (String.length s + String.length t)%nat.
Proof. induction s as [|c s IH]; [done|]. rewrite str_app_cons. simpl. by rewrite IH. Qed.

Lemma startswith_app p r : Text.startswith p (p +:+ r) = true.
Proof.
  induction p as [|c p IH]; [done|].
  rewrite str_app_cons. simpl. by rewrite Ascii.eqb_refl.
Qed.

Lemma startswith_inv p s : Text.startswith p s = true -> exists r, s = p +:+ r.
Proof.
  revert s. induction p as [|c p IH]; intros s H.
  - by exists s.
  - destruct s as [|d s]; [done|]. simpl in H.
    destruct (Ascii.eqb c d) eqn:E; [|done].
    apply Ascii.eqb_eq in E as ->.
    destruct (IH _ H) as [r ->]. by exists r.
Qed.

Lemma isin_intro pre sub post : Text.isin sub (pre +:+ sub +:+ post) = true.
Proof.
  induction pre as [|c pre IH].
  - change ("" +:+ sub +:+ post) with (sub +:+ post).
    destruct (sub +:+ post) eqn:E; simpl; rewrite <- E, startswith_app; done.
  - rewrite str_app_cons. simpl. rewrite IH. by destruct (Text.startswith _ _).
Qed.

Lemma isin_inv sub s :
  Text.isin sub s = true -> exists pre post, s = pre +:+ sub +:+ post.
Proof.
  induction s as [|c s IH]; simpl.
  - destruct (Text.startswith sub "") eqn:E; [|done].
    intros _. apply startswith_inv in E as [r ->]. by exists "", r.
  - destruct (Text.startswith sub (String c s)) eqn:E.
    + intros _. apply startswith_inv in E as [r ->]. by exists "", r.
    + intros H. destruct (IH H) as (pre & post & ->).
      by exists (String c pre), post.
Qed.

(** A text that contains a phrase contains each of its endings. *)
Lemma isin_ending a b s : Text.isin (a +:+ b) s = true -> Text.isin b s = true.
Proof.
  intros H. apply isin_inv in H as (pre & post & ->).
  rewrite str_app_assoc, <- (str_app_assoc pre a). apply isin_intro.
Qed.

(** ** The amount pattern *)

Lemma run_skip a s : s = Re.run a s +:+ Re.skip a s.
Proof.
  induction s as [|c s IH]; [done|]. simpl.
  destruct (Re.atom_matches a c); [|done]. by rewrite str_app_cons, <- IH.
Qed.

(** A greedy star whose continuation accepts the longest run keeps it. *)
Lemma star_greedy {R} a s (k : string -> option R) :
  is_Some (k (Re.skip a s)) -> Re.star a s k = k (Re.skip a s).
Proof.
  induction s as [|c s IH]; [done|]. simpl.
  destruct (Re.atom_matches a c); [|done].
  intros H. rewrite (IH H). by destruct H as [r ->].
Qed.

Lemma skip_idemp a s : Re.skip a (Re.skip a s) = Re.skip a s.
Proof.
  induction s as [|c s IH]; [done|]. simpl.
  destruct (Re.atom_matches a c) eqn:E; [done|]. simpl. by rewrite E.
Qed.

Lemma consumed_app pre rest : Re.consumed (pre +:+ rest) rest = pre.
Proof.
  unfold Re.consumed. rewrite str_length_app.
  replace (String.length pre + String.length rest - String.length rest)%nat
    with (String.length pre) by lia.
  induction pre as [|c pre IH]; simpl.
  - by destruct rest.
  - by rewrite IH.
Qed.

Lemma consumed_eq s pre rest : s = pre +:+ rest -> Re.consumed s rest = pre.
Proof. intros ->. apply consumed_app. Qed.

Lemma skip_stops a s c s' : Re.skip a s = String c s' -> Re.atom_matches a c = false.
Proof.
  induction s as [|d s IH]; [done|]. simpl.
  destruct (Re.atom_matches a d) eqn:E; [done|]. by intros [= <- <-].
Qed.

(** The group anchored at [s]: it needs a digit first and then takes the
    literal. *)
Lemma group_here s :
  Re.match_items (Re.group1 amount_pattern) s
    (fun s2 => Some (Re.consumed s s2))
  = match s with
    | String c _ => if Text.is_digit c then Some (literal_at s) else None
    | EmptyString => None
    end.
Proof.
  destruct s as [|c s]; [done|]. simpl.
  destruct (Text.is_digit c) eqn:Hc; [|done].
  set (k4 := fun s2 => Some (Re.consumed (String c s) s2)).
  assert (Hk4 : forall x, Re.star Re.AnyDigit x k4 = k4 (Re.skip Re.AnyDigit x)).
  { intros x. by apply star_greedy. }
  rewrite star_greedy.
  2:{ destruct (Re.once _ _ _); [done|]. by rewrite Hk4. }
  unfold literal_at. simpl. rewrite Hc.
  pose proof (run_skip Re.AnyDigit s) as Hs.
  destruct (Re.skip Re.AnyDigit s) as [|d s3] eqn:Hd.
  - simpl. unfold k4. f_equal. apply consumed_eq.
    rewrite !str_app_nil_r. rewrite str_app_nil_r in Hs. by rewrite <- Hs.
  - pose proof (skip_stops _ _ _ _ Hd) as Hnd. simpl in Hnd.
    destruct (Ascii.eqb "." d) eqn:E.
    + apply Ascii.eqb_eq in E as <-. simpl.
      rewrite Hk4. unfold k4. f_equal. apply consumed_eq.
      rewrite !str_app_assoc, str_app_cons. f_equal. rewrite Hs at 1. f_equal.
      change (String "." s3
              = String "." (Re.run Re.AnyDigit s3 +:+ Re.skip Re.AnyDigit s3)).
      f_equal. apply run_skip.
    + cbn [Re.once Re.atom_matches]. rewrite E, Ascii.eqb_sym, E.
      rewrite Hk4. cbn [Re.skip Re.atom_matches]. rewrite Hnd.
      unfold k4. f_equal. apply consumed_eq.
      rewrite str_app_nil_r, str_app_cons. by f_equal.
Qed.

Lemma match_here_amount s :
  Re.match_here amount_pattern s
  = match s with
    | String c s' =>
        if Text.is_digit c then Some (literal_at s)
        else if Ascii.eqb c "$" then
          match s' with
          | String d _ => if Text.is_digit d then Some (literal_at s') else None
          | EmptyString => None
          end
        else None
    | EmptyString => None
    end.
Proof.
  unfold Re.match_here.
  change (Re.before amount_pattern) with [Re.Item (Re.Lit "$") Re.Optional].
  cbn [Re.match_items].
  destruct s as [|c s]; cbn [Re.once].
  - by rewrite group_here.
  - cbn [Re.atom_matches]. rewrite !group_here.
    destruct (Ascii.eqb "$" c) eqn:E.
    + apply Ascii.eqb_eq in E as <-. simpl.
      destruct s as [|d s]; [done|]. by destruct (Text.is_digit d).
    + rewrite Ascii.eqb_sym, E. by destruct (Text.is_digit c).
Qed.

(** [re.search] with the amount pattern captures the literal at the first
    digit of the text. *)
Lemma amount_match_first_literal text : amount_match text = first_literal text.
Proof.
  unfold amount_match.
  induction text as [|c s IH]; [done|].
  cbn [Re.search first_literal]. rewrite match_here_amount.
  destruct (Text.is_digit c) eqn:Hc; [done|].
  destruct (Ascii.eqb c "$"); [|done].
  destruct s as [|d s]; [done|].
  destruct (Text.is_digit d) eqn:Hd; [|done].
  simpl. by rewrite Hd.
Qed.

(** ** Reading the captured literal *)

Lemma stops_digit_free_head dot rest : stops dot rest = true -> digit_free_head rest.
Proof.
  destruct rest as [|c rest]; [done|]. simpl.
  intros [H _]%andb_true_iff. by apply negb_true_iff.
Qed.

Lemma run_skip_app ds tail :
  all_digits ds = true -> digit_free_head tail ->
  Re.run Re.AnyDigit (ds +:+ tail) = ds /\ Re.skip Re.AnyDigit (ds +:+ tail) = tail.
Proof.
  intros Hds Ht. induction ds as [|c ds IH].
  - destruct tail as [|d tail]; [done|]. simpl in *. by rewrite Ht.
  - simpl in Hds. apply andb_true_iff in Hds as [Hc Hds].
    rewrite str_app_cons. simpl. rewrite Hc.
    destruct (IH Hds) as [-> ->]. done.
Qed.

Lemma read_digits_app ds tail acc n :
  all_digits ds = true -> digit_free_head tail ->
  Num.read_digits (ds +:+ tail) acc n
  = (digits_value_from acc ds, (n + String.length ds)%nat, tail).
Proof.
  intros Hds Ht. revert acc n. induction ds as [|c ds IH]; intros acc n.
  - destruct tail as [|d tail]; simpl in *.
    + by rewrite Nat.add_0_r.
    + by rewrite Ht, Nat.add_0_r.
  - simpl in Hds. apply andb_true_iff in Hds as [Hc Hds].
    rewrite str_app_cons. simpl. rewrite Hc, (IH Hds).
    do 2 f_equal. lia.
Qed.

Lemma digits_value_from_app acc ds fs :
  digits_value_from acc (ds +:+ fs) = digits_value_from (digits_value_from acc ds) fs.
Proof.
  revert acc. induction ds as [|c ds IH]; intros acc; [done|].
  rewrite str_app_cons. simpl. apply IH.
Qed.

(** [float] reads an amount literal as the number it denotes. *)
Lemma float_of_literal ds dot fs :
  (0 < String.length ds)%nat -> all_digits ds = true -> all_digits fs = true ->
  Num.float_of_string (literal ds dot fs) = Some (literal_value ds dot fs).
Proof.
  intros Hlen Hds Hfs. unfold Num.float_of_string, literal, literal_value.
  destruct dot.
  - change ("." +:+ fs) with (String "." fs).
    rewrite read_digits_app; [|done|reflexivity]. simpl.
    pose proof (read_digits_app fs "" (digits_value_from 0 ds) 0 Hfs I) as H.
    rewrite str_app_nil_r in H. rewrite H.
    destruct (_ =? 0)%nat eqn:E; [apply Nat.eqb_eq in E; lia|].
    unfold digits_value. rewrite digits_value_from_app. reflexivity.
  - rewrite read_digits_app; [|done|done].
    destruct (_ =? 0)%nat eqn:E; [apply Nat.eqb_eq in E; lia|]. done.
Qed.

Lemma literal_at_literal ds dot fs rest :
  all_digits ds = true -> all_digits fs = true -> stops dot rest = true ->
  literal_at (literal ds dot fs +:+ rest) = literal ds dot fs.
Proof.
  intros Hds Hfs Hst. unfold literal_at, literal. rewrite str_app_assoc.
  pose proof (stops_digit_free_head _ _ Hst) as Hh.
  destruct dot.
  - change (("." +:+ fs) +:+ rest) with (String "." (fs +:+ rest)).
    destruct (run_skip_app ds (String "." (fs +:+ rest)) Hds) as [-> ->];
      [reflexivity|].
    simpl. by destruct (run_skip_app fs rest Hfs Hh) as [-> _].
  - change ("" +:+ rest) with rest.
    destruct (run_skip_app ds rest Hds Hh) as [-> ->].
    destruct rest as [|c rest]; [done|]. simpl in Hst.
    apply andb_true_iff in Hst as [_ Hc]. simpl in Hc.
    apply negb_true_iff in Hc. by rewrite Hc.
Qed.

Lemma first_literal_skip pre s :
  no_digit pre = true -> first_literal (pre +:+ s) = first_literal s.
Proof.
  induction pre as [|c pre IH]; [done|].
  intros H. simpl in H. apply andb_true_iff in H as [Hc Hpre].
  apply negb_true_iff in Hc.
  rewrite str_app_cons. simpl. rewrite Hc. by apply IH.
Qed.

Lemma first_literal_none s : no_digit s = true -> first_literal s = None.
Proof.
  induction s as [|c s IH]; [done|]. simpl.
  intros [Hc Hs]%andb_true_iff. apply negb_true_iff in Hc.
  rewrite Hc. by apply IH.
Qed.

Lemma first_literal_here s :
  match s with String c _ => Text.is_digit c = true | EmptyString => False end ->
  first_literal s = Some (literal_at s).
Proof. destruct s as [|c s]; [done|]. simpl. by intros ->. Qed.

(** Whatever the pattern captures, [float] reads: no [ValueError]. *)
Lemma literal_at_shape s :
  exists ds dot fs,
    literal_at s = literal ds dot fs /\ ds = Re.run Re.AnyDigit s /\
    all_digits ds = true /\ all_digits fs = true.
Proof.
  assert (Hrun : forall x, all_digits (Re.run Re.AnyDigit x) = true).
  { induction x as [|c x IH]; [done|]. simpl.
    destruct (Text.is_digit c) eqn:E; [|done]. simpl. by rewrite E. }
  unfold literal_at.
  destruct (Re.skip Re.AnyDigit s) as [|c s'].
  - exists (Re.run Re.AnyDigit s), false, "". auto.
  - destruct (Ascii.eqb c ".").
    + exists (Re.run Re.AnyDigit s), true, (Re.run Re.AnyDigit s'). auto.
    + exists (Re.run Re.AnyDigit s), false, "". auto.
Qed.

Lemma amount_match_float text g :
  amount_match text = Some g -> exists x, Num.float_of_string g = Some x.
Proof.
  rewrite amount_match_first_literal.
  induction text as [|c s IH]; [done|]. simpl.
  destruct (Text.is_digit c) eqn:Hc; [|done].
  intros [= <-].
  destruct (literal_at_shape (String c s)) as (ds & dot & fs & -> & Hds & Ha & Hf).
  eexists. apply float_of_literal; [|done..].
  rewrite Hds. simpl. rewrite Hc. simpl. lia.
Qed.

(** C6: amount extraction is a function of the text alone and returns the
    value of the first substring made of an optional dollar sign, digits and
    an optional decimal fraction, whatever comes later.  This is stated of
    ASCII text, where the digits of the pattern are 0 to 9.  A text without
    a digit has no amount.  In a text [pre ++ literal ++ rest], where [pre] has
    no digit (a dollar sign may end it) and [rest] does not extend the
    literal, the amount is the value of the literal, and numbers in [rest]
    play no part.  The amount of [I spent $45 on groceries] is 45.00 and that
    of [I bought coffee for $4.50] is 4.50. *)
Theorem C6_extract_amount_first_match :
  (forall text,
      Text.is_ascii text = true ->
      no_digit text = true -> extract_amount text = None) /\
  (forall pre ds dot fs rest,
      Text.is_ascii (pre +:+ literal ds dot fs +:+ rest) = true ->
      no_digit pre = true ->
      (0 < String.length ds)%nat -> all_digits ds = true ->
      all_digits fs = true -> stops dot rest = true ->
      extract_amount (pre +:+ literal ds dot fs +:+ rest)
      = Some (literal_value ds dot fs)) /\
  extract_amount "I spent $45 on groceries" = Some (Dec 45 0) /\
  extract_amount "I bought coffee for $4.50" = Some (Dec 450 2) /\
  Num.format_2f (Dec 45 0) = "45.00" /\ Num.format_2f (Dec 450 2) = "4.50".
Proof.
  split; [|split; [|by vm_compute]].
  - intros text _ H. unfold extract_amount.
    by rewrite amount_match_first_literal, first_literal_none.
  - intros pre ds dot fs rest _ Hpre Hlen Hds Hfs Hst. unfold extract_amount.
    rewrite amount_match_first_literal, first_literal_skip by done.
    rewrite first_literal_here.
    + rewrite literal_at_literal by done. by apply float_of_literal.
    + unfold literal. destruct ds as [|c ds]; [simpl in Hlen; lia|].
      rewrite !str_app_cons. simpl in Hds. by apply andb_true_iff in Hds as [-> _].
Qed.

Lemma C6_witness :
  extract_amount ("I spent $" +:+ literal "45" true "50" +:+ " on 3 apples and 2 pears")
  = Some (literal_value "45" true "50").
Proof.
  apply (proj1 (proj2 C6_extract_amount_first_match)); vm_compute; first [reflexivity | lia].
Defined.

(** ** Numbers *)

Lemma digit_value_nonneg c : Text.is_digit c = true -> 0 <= Text.digit_value c.
Proof.
  unfold Text.is_digit, Text.digit_value.
  intros [H _]%andb_true_iff. apply Nat.leb_le in H. lia.
Qed.

Lemma read_digits_nonneg s acc n :
  0 <= acc -> 0 <= (Num.read_digits s acc n).1.1.
Proof.
  revert acc n. induction s as [|c s IH]; intros acc n Hacc; [done|].
  simpl. destruct (Text.is_digit c) eqn:Hc; [|done].
  apply IH. pose proof (digit_value_nonneg c Hc). lia.
Qed.

(** [float] of a captured group is never negative: the pattern has no sign. *)
Lemma float_of_string_nonneg s x : Num.float_of_string s = Some x -> 0 <= mant x.
Proof.
  unfold Num.float_of_string.
  pose proof (read_digits_nonneg s 0 0 ltac:(lia)) as H0.
  destruct (Num.read_digits s 0 0) as [[i ni] r]. simpl in H0.
  destruct r as [|c r].
  - destruct (ni =? 0)%nat; [done|]. by intros [= <-].
  - destruct (Ascii.eqb c "."); [|done].
    pose proof (read_digits_nonneg r i 0 H0) as H1.
    destruct (Num.read_digits r i 0) as [[m nf] r'']. simpl in H1.
    destruct r''; [|done]. destruct (ni + nf =? 0)%nat; [done|]. by intros [= <-].
Qed.

Lemma round_half_away_nonneg n d : 0 <= n -> 0 < d -> 0 <= Num.round_half_away n d.
Proof.
  intros Hn Hd. unfold Num.round_half_away.
  apply Z.mul_nonneg_nonneg; [by apply Z.sgn_nonneg|].
  apply Z.div_pos; lia.
Qed.

Lemma numeric_10_2_nonneg x c :
  0 <= mant x -> Num.numeric_10_2 x = Some c -> 0 <= c.
Proof.
  intros Hx. unfold Num.numeric_10_2, Num.to_cents.
  destruct (Z.abs _ <? 10 ^ 10); [|done]. intros [= <-].
  destruct (scale x <=? 2)%nat.
  - apply Z.mul_nonneg_nonneg; [done|]. apply Z.pow_nonneg. lia.
  - apply round_half_away_nonneg; [done|]. apply Z.pow_pos_nonneg; lia.
Qed.

(** ** Handlers *)

Ltac unfold_M :=
  cbv beta iota zeta delta
    [bind ret raise try_except float_ get_db_connection cursor
     datetime_now execute_insert fetchall messages_create].

Lemma record_expense_no_amount text w :
  amount_match text = None -> record_expense text w = (Return no_amount_expense, w).
Proof. intros H. unfold record_expense. by rewrite H. Qed.

Lemma record_income_no_amount text w :
  amount_match text = None -> record_income text w = (Return no_amount_income, w).
Proof. intros H. unfold record_income. by rewrite H. Qed.

(** Without a usable backend a recording handler that found an amount raises
    before anything is stored. *)
Lemma record_expense_no_backend text g w :
  amount_match text = Some g -> database w <> Reachable ->
  record_expense text w = (Raise (storage_exn (database w)), w).
Proof.
  intros Hg Hdb. unfold record_expense. rewrite Hg.
  destruct (amount_match_float _ _ Hg) as [x Hx].
  unfold_M. rewrite Hx. by destruct (database w).
Qed.

Lemma record_income_no_backend text g w :
  amount_match text = Some g -> database w <> Reachable ->
  record_income text w = (Raise (storage_exn (database w)), w).
Proof.
  intros Hg Hdb. unfold record_income. rewrite Hg.
  destruct (amount_match_float _ _ Hg) as [x Hx].
  unfold_M. rewrite Hx. by destruct (database w).
Qed.

Lemma adds_nonneg_refl w : adds_nonneg w w.
Proof.
  exists []. unfold appended. rewrite app_nil_r. repeat split; auto.
Qed.

Lemma record_expense_adds text w : adds_nonneg w (record_expense text w).2.
Proof.
  unfold record_expense.
  destruct (amount_match text) as [g|]; [|apply adds_nonneg_refl].
  unfold_M.
  destruct (Num.float_of_string g) as [x|] eqn:Hx; [|apply adds_nonneg_refl].
  destruct (database w) eqn:Hdb; [apply adds_nonneg_refl..|].
  destruct (Num.numeric_10_2 x) as [c|] eqn:Hc; [|apply adds_nonneg_refl].
  simpl. eexists [_]. split; [by repeat split|]. split; [|simpl; lia].
  constructor; [|done]. simpl.
  eapply numeric_10_2_nonneg; [|done]. by eapply float_of_string_nonneg.
Qed.

Lemma record_income_adds text w : adds_nonneg w (record_income text w).2.
Proof.
  unfold record_income.
  destruct (amount_match text) as [g|]; [|apply adds_nonneg_refl].
  unfold_M.
  destruct (Num.float_of_string g) as [x|] eqn:Hx; [|apply adds_nonneg_refl].
  destruct (database w) eqn:Hdb; [apply adds_nonneg_refl..|].
  destruct (Num.numeric_10_2 x) as [c|] eqn:Hc; [|apply adds_nonneg_refl].
  simpl. eexists [_]. split; [by repeat split|]. split; [|simpl; lia].
  constructor; [|done]. simpl.
  eapply numeric_10_2_nonneg; [|done]. by eapply float_of_string_nonneg.
Qed.

(** Reports read the table and leave the state alone. *)
Lemma get_balances_state w : (get_balances w).2 = w.
Proof. unfold get_balances. unfold_M. by destruct (database w). Qed.

Lemma get_recent_transactions_state w : (get_recent_transactions w).2 = w.
Proof. unfold get_recent_transactions. unfold_M. by destruct (database w). Qed.

Lemma get_expenses_summary_state w : (get_expenses_summary w).2 = w.
Proof. unfold get_expenses_summary. unfold_M. by destruct (database w). Qed.

Lemma handle_query_state text w : (handle_query text w).2 = w.
Proof.
  unfold handle_query.
  destruct (Text.isin "balance" _); [apply get_balances_state|].
  destruct (Text.isin "expense" _);
    [apply get_expenses_summary_state|apply get_recent_transactions_state].
Qed.

(** With a reachable backend every report is produced. *)
Lemma handle_query_reachable text w :
  database w = Reachable -> exists report, handle_query text w = (Return report, w).
Proof.
  intros Hdb. unfold handle_query.
  destruct (Text.isin "balance" _);
    [|destruct (Text.isin "expense" _)];
    unfold get_balances, get_expenses_summary, get_recent_transactions;
    unfold_M; rewrite Hdb; by eexists.
Qed.

(** Without one, every report raises. *)
Lemma handle_query_no_backend text w :
  database w <> Reachable ->
  handle_query text w = (Raise (storage_exn (database w)), w).
Proof.
  intros Hdb. unfold handle_query.
  destruct (Text.isin "balance" _);
    [|destruct (Text.isin "expense" _)];
    unfold get_balances, get_expenses_summary, get_recent_transactions;
    unfold_M; by destruct (database w).
Qed.

(** ** The router *)

Lemma pattern_matching_handler text :
  pattern_matching text = handler_of (heuristic_intent text) text.
Proof.
  unfold pattern_matching, heuristic_intent.
  by repeat destruct (Text.any_in _ _).
Qed.

Lemma dispatch_ai_handler ai_response text :
  dispatch_ai ai_response text = handler_of (response_intent ai_response) text.
Proof.
  unfold dispatch_ai, response_intent. by repeat destruct (Text.isin _ _).
Qed.

Lemma handler_adds intent text w : adds_nonneg w (handler_of intent text w).2.
Proof.
  destruct intent; simpl.
  - apply record_expense_adds.
  - apply record_income_adds.
  - rewrite handle_query_state. apply adds_nonneg_refl.
  - apply adds_nonneg_refl.
Qed.

(** A handler that raises has stored nothing. *)
Lemma handler_raise_state intent text w e w' :
  handler_of intent text w = (Raise e, w') -> w' = w.
Proof.
  destruct intent; simpl.
  - unfold record_expense. destruct (amount_match text); [|done]. unfold_M.
    destruct (Num.float_of_string _); [|by intros [= _ <-]].
    destruct (database w); try by intros [= _ <-].
    destruct (Num.numeric_10_2 _); [done|by intros [= _ <-]].
  - unfold record_income. destruct (amount_match text); [|done]. unfold_M.
    destruct (Num.float_of_string _); [|by intros [= _ <-]].
    destruct (database w); try by intros [= _ <-].
    destruct (Num.numeric_10_2 _); [done|by intros [= _ <-]].
  - intros H. pose proof (handle_query_state text w) as Hs.
    rewrite H in Hs. done.
  - done.
Qed.

(** The router with a configured model that answers. *)
Lemma process_with_answer self model ai_response text w :
  client self = Some model -> model text = Return ai_response ->
  process_natural_language self text w
  = try_except (handler_of (response_intent ai_response) text)
               (fun _ => pattern_matching text) w.
Proof.
  intros Hc Hm. unfold process_natural_language. rewrite Hc.
  unfold try_except, bind, messages_create. rewrite Hm.
  by rewrite dispatch_ai_handler.
Qed.

(** The router when the model call raises, and without a model: the keyword
    path alone. *)
Lemma process_model_raises self model e text w :
  client self = Some model -> model text = Raise e ->
  process_natural_language self text w = pattern_matching text w.
Proof.
  intros Hc Hm. unfold process_natural_language. rewrite Hc.
  unfold try_except, bind, messages_create. by rewrite Hm.
Qed.

Lemma process_keywords_only self text w :
  client self = None ->
  process_natural_language self text w = pattern_matching text w.
Proof. intros Hc. unfold process_natural_language. by rewrite Hc. Qed.

Lemma process_adds self text w :
  adds_nonneg w (process_natural_language self text w).2.
Proof.
  destruct (client self) as [model|] eqn:Hc.
  - destruct (model text) as [r|e] eqn:Hm.
    + rewrite (process_with_answer _ _ _ _ _ Hc Hm). unfold try_except.
      destruct (handler_of _ text w) as [[reply|e] w'] eqn:Hh.
      * pose proof (handler_adds (response_intent r) text w) as H.
        by rewrite Hh in H.
      * apply handler_raise_state in Hh as ->.
        rewrite pattern_matching_handler. apply handler_adds.
    + rewrite (process_model_raises _ _ _ _ _ Hc Hm).
      rewrite pattern_matching_handler. apply handler_adds.
  - rewrite (process_keywords_only _ _ _ Hc).
    rewrite pattern_matching_handler. apply handler_adds.
Qed.

(** ** Keyword classification *)

Lemma any_in_intro word words s :
  word ∈ words -> Text.isin word s = true -> Text.any_in words s = true.
Proof.
  intros Hin Hs. unfold Text.any_in. apply existsb_exists.
  exists word. split; [by apply list_elem_of_In|done].
Qed.

(** The income trigger [got paid] is shadowed by the expense trigger [paid]:
    no text reaches the income branch through it. *)
Lemma got_paid_is_expense text :
  Text.isin "got paid" (Text.lower text) = true ->
  heuristic_intent text = Expense.
Proof.
  intros H. unfold heuristic_intent.
  rewrite (any_in_intro "paid"); [done|set_solver|].
  by apply (isin_ending "got " "paid").
Qed.

(** C1 (the code departs from the claim): a text with the income phrase
    [got paid] is never classified as Income by the keyword path, which
    tests the expense word [paid] first; the example text of the interface,
    [Got paid $5000 from client project], is recorded as an expense of
    5000.00 debited to Expenses:General and credited to Assets:Cash. *)
Theorem C1_got_paid_recorded_as_expense :
  (forall text w,
      Text.isin "got paid" (Text.lower text) = true ->
      heuristic_intent text = Expense /\
      process_natural_language keywords_only text w = record_expense text w) /\
  process_natural_language keywords_only "Got paid $5000 from client project" w0
  = (Return ("✓ Recorded: Expenses:General $5000.00" +:+ Text.newline +:+
             "Description: Got paid $5000 from client project"),
     World Reachable
       [Transaction 1 t0 "Got paid $5000 from client project"
                    "Expenses:General" "Assets:Cash" 500000 true]
       2 t0).
Proof.
  split; [|by vm_compute].
  intros text w H. pose proof (got_paid_is_expense text H) as Hi.
  split; [done|].
  rewrite process_keywords_only by done.
  by rewrite pattern_matching_handler, Hi.
Qed.

Lemma C1_witness :
  heuristic_intent "Got paid $5000 from client project" = Expense /\
  process_natural_language keywords_only "Got paid $5000 from client project" w0
  = record_expense "Got paid $5000 from client project" w0.
Proof.
  apply (proj1 C1_got_paid_recorded_as_expense). reflexivity.
Defined.

(** C2 as stated fails: the model answers without any of the three tokens,
    and the reply is the recent-transactions report, not the confirmation
    the keyword path gives for the same message. *)
Lemma C2_counterexample :
  Text.isin "EXPENSE" "I am not sure" = false /\
  Text.isin "INCOME" "I am not sure" = false /\
  Text.isin "QUERY" "I am not sure" = false /\
  process_natural_language (answering "I am not sure")
    "I spent $45 on groceries" w0
  = (Return recent_header, w0) /\
  process_natural_language keywords_only "I spent $45 on groceries" w0
  = (Return ("✓ Recorded: Expenses:General $45.00" +:+ Text.newline +:+
             "Description: I spent $45 on groceries"),
     World Reachable
       [Transaction 1 t0 "I spent $45 on groceries"
                    "Expenses:General" "Assets:Cash" 4500 true]
       2 t0) /\
  (process_natural_language (answering "I am not sure")
     "I spent $45 on groceries" w0).1
  <> (process_natural_language keywords_only "I spent $45 on groceries" w0).1.
Proof. repeat split; by vm_compute. Qed.

(** C2 (amended): a model answer with neither EXPENSE nor INCOME in it,
    whether or not it has QUERY, is taken for a query: the router runs the
    query handler and, the backend being reachable, returns its report and
    leaves the table as it was; the keyword path is not consulted. *)
Theorem C2_answer_without_token_is_a_query self model ai_response text w :
  client self = Some model -> model text = Return ai_response ->
  Text.isin "EXPENSE" ai_response = false ->
  Text.isin "INCOME" ai_response = false ->
  database w = Reachable ->
  process_natural_language self text w = handle_query text w /\
  exists report, process_natural_language self text w = (Return report, w).
Proof.
  intros Hc Hm He Hi Hdb.
  rewrite (process_with_answer _ _ _ _ _ Hc Hm).
  unfold response_intent. rewrite He, Hi. simpl. unfold try_except.
  destruct (handle_query_reachable text w Hdb) as [report ->]. eauto.
Qed.

Lemma C2_witness :
  process_natural_language (answering "I am not sure")
    "I spent $45 on groceries" w0
  = handle_query "I spent $45 on groceries" w0 /\
  exists report,
    process_natural_language (answering "I am not sure")
      "I spent $45 on groceries" w0 = (Return report, w0).
Proof.
  apply (C2_answer_without_token_is_a_query (answering "I am not sure")
           (fun _ => Return "I am not sure") "I am not sure");
    reflexivity.
Defined.

(** A configured backend that fails the insert makes the handler raise
    before anything is stored. *)
Lemma record_expense_insert_fails text x w e :
  extract_amount text = Some x -> insert_failure (database w) x = Some e ->
  record_expense text w = (Raise e, w).
Proof.
  unfold extract_amount, record_expense, insert_failure.
  destruct (amount_match text) as [g|]; [|done]. intros Hx. unfold_M.
  rewrite Hx. destruct (database w); [done| |].
  - by intros [= <-].
  - destruct (Num.numeric_10_2 x); [done|]. by intros [= <-].
Qed.

Lemma record_income_insert_fails text x w e :
  extract_amount text = Some x -> insert_failure (database w) x = Some e ->
  record_income text w = (Raise e, w).
Proof.
  unfold extract_amount, record_income, insert_failure.
  destruct (amount_match text) as [g|]; [|done]. intros Hx. unfold_M.
  rewrite Hx. destruct (database w); [done| |].
  - by intros [= <-].
  - destruct (Num.numeric_10_2 x); [done|]. by intros [= <-].
Qed.

(** Inside the model branch the exception of a handler is caught and the
    keyword path runs on the same text and state. *)
Lemma process_handler_raises self model ai_response text w e :
  client self = Some model -> model text = Return ai_response ->
  handler_of (response_intent ai_response) text w = (Raise e, w) ->
  process_natural_language self text w = pattern_matching text w.
Proof.
  intros Hc Hm Hh. rewrite (process_with_answer _ _ _ _ _ Hc Hm).
  unfold try_except. by rewrite Hh.
Qed.

(** C3 as stated fails: the backend cannot be reached, or rejects an amount
    with nine digits before the point, and the request ends in an exception
    that leaves [chat_with_accountant]; no reply is returned. *)
Lemma C3_counterexample :
  chat_with_accountant keywords_only "I spent $45 on groceries" [] (unreachable w0)
  = (Raise OperationalError, unreachable w0) /\
  chat_with_accountant keywords_only "I paid $100000000 for the house" [] w0
  = (Raise NumericValueOutOfRange, w0) /\
  (forall reply w',
      chat_with_accountant keywords_only "I spent $45 on groceries" []
        (unreachable w0) <> (Return reply, w')).
Proof. repeat split; by vm_compute. Qed.

(** On the keyword path, taken without a model and when the model call
    raises, the router is [pattern_matching]. *)
Lemma process_keyword_path self text w :
  keyword_path self text = true ->
  process_natural_language self text w = pattern_matching text w.
Proof.
  unfold keyword_path. destruct (client self) as [model|] eqn:Hc.
  - destruct (model text) as [r|e] eqn:Hm; [done|]. intros _.
    by apply (process_model_raises _ _ _ _ _ Hc Hm).
  - intros _. by apply process_keywords_only.
Qed.

(** C3 (amended): when the configured backend cannot be reached or rejects
    the amount, the insert attempt of [record_expense] and of
    [record_income] stores nothing and raises the driver's exception instead
    of returning a reply, whatever the text of the request (plain text: ASCII
    without the NUL character, which the driver refuses on its own).  When
    the request is routed by the keywords, without a model or after a failed
    model call, to one of the two handlers, the exception leaves the router
    and [chat_with_accountant] unhandled, under any accountant and
    history. *)
Theorem C3_storage_failure_raises text x w e :
  Text.is_plain text = true ->
  extract_amount text = Some x ->
  insert_failure (database w) x = Some e ->
  record_expense text w = (Raise e, w) /\
  record_income text w = (Raise e, w) /\
  forall self history,
    keyword_path self text = true ->
    heuristic_intent text = Expense \/ heuristic_intent text = Income ->
    chat_with_accountant self text history w = (Raise e, w).
Proof.
  intros _ Hx He.
  pose proof (record_expense_insert_fails _ _ _ _ Hx He) as Hexp.
  pose proof (record_income_insert_fails _ _ _ _ Hx He) as Hinc.
  split; [done|]. split; [done|].
  intros self history Hk Hi.
  unfold chat_with_accountant. rewrite process_keyword_path by done.
  rewrite pattern_matching_handler. by destruct Hi as [-> | ->].
Qed.

Lemma C3_witness :
  (record_expense "lunch $100000000" w0 = (Raise NumericValueOutOfRange, w0) /\
   record_income "lunch $100000000" w0 = (Raise NumericValueOutOfRange, w0)) /\
  chat_with_accountant failing_model "I received $45 from a client"
    [("Show me my balance", balances_header)] (unreachable w_sample)
  = (Raise OperationalError, unreachable w_sample).
Proof.
  split.
  - pose proof (C3_storage_failure_raises "lunch $100000000" (Dec 100000000 0) w0
                  NumericValueOutOfRange eq_refl eq_refl eq_refl) as (He & Hi & _).
    by split.
  - apply (C3_storage_failure_raises "I received $45 from a client" (Dec 45 0)
             (unreachable w_sample) OperationalError eq_refl eq_refl eq_refl).
    + reflexivity.
    + right. reflexivity.
Defined.

(** Without [DATABASE_URL] the handlers call [cursor] on [None]; behind a
    model the exception is swallowed by the [except] clause and the keyword
    path answers, here with the guidance text. *)
Lemma storage_failure_behind_model :
  chat_with_accountant keywords_only "I spent $45 on groceries" [] w_nodb
  = (Raise AttributeError, w_nodb) /\
  process_natural_language (answering "EXPENSE: lunch") "lunch $12" w_nodb
  = (Return guidance, w_nodb).
Proof. split; by vm_compute. Qed.

(** C5: the model's answer is searched for EXPENSE first and for INCOME
    second.  An answer that contains EXPENSE is an Expense and goes to
    [record_expense], whether or not INCOME or QUERY occur in it; an answer
    that contains INCOME and not EXPENSE is an Income and goes to
    [record_income], whether or not QUERY occurs in it.  The keyword path
    takes over only if the handler so chosen raises. *)
Theorem C5_expense_before_income_before_query self model ai_response text w :
  client self = Some model -> model text = Return ai_response ->
  Text.isin "EXPENSE" ai_response || Text.isin "INCOME" ai_response = true ->
  response_intent ai_response
  = (if Text.isin "EXPENSE" ai_response then Expense else Income) /\
  process_natural_language self text w
  = try_except
      (if Text.isin "EXPENSE" ai_response then record_expense text
       else record_income text)
      (fun _ => pattern_matching text) w.
Proof.
  intros Hc Hm Htok.
  rewrite (process_with_answer _ _ _ _ _ Hc Hm). unfold response_intent.
  destruct (Text.isin "EXPENSE" ai_response); [done|].
  simpl in Htok. by rewrite Htok.
Qed.

Lemma C5_witness :
  response_intent "INCOME or EXPENSE? QUERY" = Expense /\
  process_natural_language (answering "INCOME or EXPENSE? QUERY")
    "Got $20 back" w0
  = try_except (record_expense "Got $20 back")
      (fun _ => pattern_matching "Got $20 back") w0.
Proof.
  apply (C5_expense_before_income_before_query
           (answering "INCOME or EXPENSE? QUERY")
           (fun _ => Return "INCOME or EXPENSE? QUERY"));
    reflexivity.
Defined.

(** C9: when no substring of the text (ASCII text, where the digits of the
    pattern are 0 to 9) matches the amount pattern and the request is
    classified as Expense or as Income (by the model's answer, or
    by the keywords when there is no model or its call fails), the reply is
    the handler's fixed message, which starts with [I couldn't find an
    amount.], and the state after the request, the stored transactions
    included, is the state before it.  The same holds of each recording
    handler called directly. *)
Theorem C9_no_amount_no_write self text w :
  Text.is_ascii text = true ->
  amount_match text = None ->
  routed_intent self text = Expense \/ routed_intent self text = Income ->
  process_natural_language self text w
  = (Return (no_amount_reply (routed_intent self text)), w) /\
  Text.startswith "I couldn't find an amount."
    (no_amount_reply (routed_intent self text)) = true /\
  record_expense text w = (Return no_amount_expense, w) /\
  record_income text w = (Return no_amount_income, w).
Proof.
  intros _ Hno Hi.
  pose proof (record_expense_no_amount text w Hno) as He.
  pose proof (record_income_no_amount text w Hno) as Hn.
  split; [|split; [by destruct (routed_intent self text)|done]].
  unfold routed_intent in *.
  destruct (client self) as [model|] eqn:Hc.
  - destruct (model text) as [r|e] eqn:Hm.
    + rewrite (process_with_answer _ _ _ _ _ Hc Hm). unfold try_except.
      destruct Hi as [-> | ->]; simpl; by rewrite ?He, ?Hn.
    + rewrite (process_model_raises _ _ _ _ _ Hc Hm), pattern_matching_handler.
      destruct Hi as [-> | ->]; simpl; by rewrite ?He, ?Hn.
  - rewrite (process_keywords_only _ _ _ Hc), pattern_matching_handler.
    destruct Hi as [-> | ->]; simpl; by rewrite ?He, ?Hn.
Qed.

Lemma C9_witness :
  process_natural_language keywords_only "I earned a lot today" w0
  = (Return no_amount_income, w0) /\
  Text.startswith "I couldn't find an amount." no_amount_income = true /\
  record_expense "I earned a lot today" w0 = (Return no_amount_expense, w0) /\
  record_income "I earned a lot today" w0 = (Return no_amount_income, w0).
Proof.
  apply (C9_no_amount_no_write keywords_only "I earned a lot today" w0).
  - reflexivity.
  - reflexivity.
  - right. reflexivity.
Defined.

(** ** Amounts in the table *)

Lemma serve_nonneg self session w :
  Forall (fun t => 0 <= amount t) (transactions w) ->
  Forall (fun t => 0 <= amount t) (transactions (serve self session w)).
Proof.
  revert w. induction session as [|r session IH]; intros w Hw; [done|].
  simpl. apply IH. unfold chat_with_accountant.
  destruct (process_adds self (message r)
              (World (backend_then r) (transactions w) (next_id w) (time_then r)))
    as (new & (Hrows & _) & Hnew & _).
  rewrite Hrows. simpl. by apply Forall_app.
Qed.

(** C10: a request stores nothing or appends rows whose amounts are not
    negative, so every row a session adds to an empty table has a
    non-negative amount.  The pattern captures digits only: the minus sign of
    [-$45] is not part of the match and the row holds 45.00.  Zero is
    possible: [$0] stores 0.00. *)
Theorem C10_inserted_amounts_nonnegative :
  (forall self text w,
      exists new,
        appended w new (process_natural_language self text w).2 /\
        Forall (fun t => 0 <= amount t) new) /\
  (forall self session,
      Forall (fun t => 0 <= amount t) (transactions (serve self session w0))) /\
  amount <$> transactions (record_expense "I spent -$45 on food" w0).2 = [4500] /\
  amount <$> transactions (record_income "I received -$45" w0).2 = [4500] /\
  amount <$> transactions (record_expense "I paid $0" w0).2 = [0].
Proof.
  split; [|split; [|by vm_compute]].
  - intros self text w.
    destruct (process_adds self text w) as (new & H1 & H2 & _). eauto.
  - intros self session. by apply serve_nonneg.
Qed.

(** ** Reports *)

(** A rendering loop appends one line per row to the header. *)
Lemma render_loop {A} (line : A -> string) (header : string) (l : list A) :
  foldl (fun result x => result +:+ line x) header l
  = header +:+ concat_lines (line <$> l).
Proof.
  revert header. induction l as [|x l IH]; intros header; simpl.
  - by rewrite str_app_nil_r.
  - by rewrite IH, str_app_assoc.
Qed.

Lemma concat_lines_cons x l : concat_lines (x :: l) = x +:+ concat_lines l.
Proof. reflexivity. Qed.

Lemma slice_to_prefix n s : exists rest, s = Text.slice_to n s +:+ rest.
Proof.
  revert s. induction n as [|n IH]; intros s.
  - exists s. by destruct s.
  - destruct s as [|c s]; [by exists ""|].
    destruct (IH s) as [rest Hr]. exists rest. simpl.
    by rewrite str_app_cons, <- Hr.
Qed.

Lemma slice_to_length n s :
  String.length (Text.slice_to n s) = min n (String.length s).
Proof.
  revert s. induction n as [|n IH]; intros s; [by destruct s|].
  destruct s as [|c s]; [done|]. simpl. by rewrite IH.
Qed.

#[local] Instance newest_first_trans : Transitive newest_first.
Proof. unfold newest_first. intros a b c. lia. Qed.

#[local] Instance newest_first_total : Total newest_first.
Proof. unfold newest_first. intros a b. lia. Qed.

Lemma get_recent_transactions_reachable w :
  database w = Reachable ->
  get_recent_transactions w
  = (Return (recent_header +:+
             concat_lines (recent_line <$> recent_query (transactions w))), w).
Proof.
  intros Hdb. unfold get_recent_transactions. unfold_M. rewrite Hdb.
  by rewrite render_loop.
Qed.

(** C7: with a reachable backend the recent-transactions report is the
    header followed by one line per row of [rows], where [rows] are the first
    five rows of the table sorted by date, newest first, so at most five.
    Each line gives month/day, the description cut to its first 30
    characters, then the ellipsis [...] in every case, also when the
    description is shorter than 30 characters, and the amount with two
    decimals.  This is stated of tables whose descriptions are ASCII text,
    where a byte is a character.  On the seven rows of [sample_rows], stored
    out of date order, the report has the five newest, the row of the 7th
    first, and cuts [I paid $30 for dinner with the whole team yesterday]
    after [I paid $30 for dinner with the]. *)
Theorem C7_recent_transactions :
  (forall w,
      database w = Reachable ->
      ascii_descriptions (transactions w) = true ->
      exists sorted rows,
        sorted ≡ₚ transactions w /\ StronglySorted newest_first sorted /\
        rows = take 5 sorted /\ (length rows <= 5)%nat /\
        get_recent_transactions w
        = (Return
             (recent_header +:+
              concat_lines
                ((fun row =>
                    strftime_md (date row) +:+ ": " +:+
                    Text.slice_to 30 (description row) +:+ "..." +:+
                    " $" +:+ Num.render_cents (amount row) +:+ Text.newline)
                   <$> rows)), w) /\
        forall row,
          (exists cut, description row = Text.slice_to 30 (description row) +:+ cut) /\
          String.length (Text.slice_to 30 (description row))
          = min 30 (String.length (description row))) /\
  get_recent_transactions w_sample
  = (Return (recent_header +:+
             "03/07: I received $1200 today... $1200.00" +:+ Text.newline +:+
             "03/06: I paid $30 for dinner with the... $30.00" +:+ Text.newline +:+
             "03/05: I bought coffee for $4.50... $4.50" +:+ Text.newline +:+
             "03/04: I spent $8.25 on an uber... $8.25" +:+ Text.newline +:+
             "03/03: I paid $12 for the taxi... $12.00" +:+ Text.newline), w_sample).
Proof.
  split; [|by vm_compute].
  intros w Hdb _.
  exists (merge_sort newest_first (transactions w)),
         (recent_query (transactions w)).
  split; [apply merge_sort_Permutation|].
  split; [apply StronglySorted_merge_sort; apply _|].
  split; [done|].
  split; [unfold recent_query; rewrite length_take; lia|].
  split; [by apply get_recent_transactions_reachable|].
  intros row. split; [apply slice_to_prefix|apply slice_to_length].
Qed.

Lemma C7_witness :
  exists sorted rows,
    sorted ≡ₚ transactions w_sample /\ StronglySorted newest_first sorted /\
    rows = take 5 sorted /\ (length rows <= 5)%nat /\
    get_recent_transactions w_sample
    = (Return
         (recent_header +:+
          concat_lines
            ((fun row =>
                strftime_md (date row) +:+ ": " +:+
                Text.slice_to 30 (description row) +:+ "..." +:+
                " $" +:+ Num.render_cents (amount row) +:+ Text.newline)
               <$> rows)), w_sample) /\
    forall row,
      (exists cut, description row = Text.slice_to 30 (description row) +:+ cut) /\
      String.length (Text.slice_to 30 (description row))
      = min 30 (String.length (description row)).
Proof. apply (proj1 C7_recent_transactions w_sample); reflexivity. Defined.

(** ** Grouped sums *)

Lemma sum_Z_app l1 l2 : sum_Z (l1 ++ l2) = sum_Z l1 + sum_Z l2.
Proof. unfold sum_Z. induction l1 as [|x l1 IH]; simpl; lia. Qed.

Lemma sum_Z_Permutation l1 l2 : l1 ≡ₚ l2 -> sum_Z l1 = sum_Z l2.
Proof. unfold sum_Z. induction 1; simpl; lia. Qed.

Lemma group_sum_keys key rows :
  (group_sum key rows).*1 = remove_dups (key <$> rows).
Proof.
  unfold group_sum. rewrite <- list_fmap_compose.
  induction (remove_dups (key <$> rows)) as [|a l IH]; [done|].
  simpl. by f_equal.
Qed.

Lemma group_sum_elem key rows a x :
  (a, x) ∈ group_sum key rows ->
  x = sum_amount (filter (fun t => key t = a) rows) /\ a ∈ key <$> rows.
Proof.
  unfold group_sum. intros (a' & [= -> ->] & Hin)%list_elem_of_fmap.
  split; [done|]. by rewrite elem_of_remove_dups in Hin.
Qed.

Lemma sum_Z_cons x l : sum_Z (x :: l) = x + sum_Z l.
Proof. reflexivity. Qed.

(** The totals of a key that occurs once in a list of keys. *)
Lemma sum_over_keys (f : string -> Z) ks k v :
  NoDup ks -> k ∈ ks ->
  sum_Z ((fun a => (if decide (k = a) then v else 0) + f a) <$> ks)
  = v + sum_Z (f <$> ks).
Proof.
  induction 1 as [|a ks Hni Hnd IH]; [by intros ?%elem_of_nil|].
  intros [->|Hin]%elem_of_cons; rewrite !fmap_cons, !sum_Z_cons.
  - rewrite decide_True by done.
    assert (Hrest : (fun a0 => (if decide (a = a0) then v else 0) + f a0) <$> ks
                    = f <$> ks).
    { apply list_fmap_ext. intros i a0 Ha0.
      rewrite decide_False; [lia|].
      intros <-. apply Hni. by eapply list_elem_of_lookup_2. }
    rewrite Hrest. lia.
  - rewrite decide_False by (intros ->; done).
    rewrite IH by done. lia.
Qed.

(** Summing the groups counts every row once. *)
Lemma sum_groups (key : transaction -> string) rows ks :
  NoDup ks -> (forall t, t ∈ rows -> key t ∈ ks) ->
  sum_Z ((fun a => sum_amount (filter (fun t => key t = a) rows)) <$> ks)
  = sum_amount rows.
Proof.
  intros Hnd. induction rows as [|t rows IH]; intros Hks.
  - clear Hks Hnd. induction ks as [|a ks IHks]; [done|].
    rewrite fmap_cons, sum_Z_cons, IHks. reflexivity.
  - assert (Hstep : (fun a => sum_amount (filter (fun t0 => key t0 = a) (t :: rows)))
                    <$> ks
                    = (fun a => (if decide (key t = a) then amount t else 0)
                                + sum_amount (filter (fun t0 => key t0 = a) rows))
                    <$> ks).
    { apply list_fmap_ext. intros i a _. rewrite filter_cons.
      destruct (decide (key t = a)); [done|]. simpl. lia. }
    rewrite Hstep, sum_over_keys; [|done|apply Hks; left].
    rewrite IH; [done|]. intros t' Ht'. apply Hks. by right.
Qed.

Lemma group_sum_total key rows :
  sum_Z ((group_sum key rows).*2) = sum_amount rows.
Proof.
  unfold group_sum. rewrite <- list_fmap_compose.
  rewrite <- (sum_groups key rows (remove_dups (key <$> rows))).
  - done.
  - apply NoDup_remove_dups.
  - intros t Ht. apply elem_of_remove_dups. by apply list_elem_of_fmap_2.
Qed.

#[local] Instance largest_first_trans : Transitive largest_first.
Proof. unfold largest_first. intros a b c. lia. Qed.

#[local] Instance largest_first_total : Total largest_first.
Proof. unfold largest_first. intros a b. lia. Qed.

Lemma summary_loop_spec rows :
  summary_loop rows
  = (expenses_header +:+ concat_lines (expense_line <$> rows), sum_Z (rows.*2)).
Proof.
  unfold summary_loop.
  assert (H : forall st,
             foldl (fun st row => (st.1 +:+ expense_line row, st.2 + row.2)) st rows
             = (st.1 +:+ concat_lines (expense_line <$> rows),
                st.2 + sum_Z (rows.*2))).
  { induction rows as [|r rows IH]; intros [text total].
    - simpl. rewrite str_app_nil_r. f_equal. unfold sum_Z. simpl. lia.
    - cbn [foldl]. rewrite IH. cbn [fst snd].
      rewrite !fmap_cons, sum_Z_cons, concat_lines_cons, str_app_assoc.
      f_equal. lia. }
  rewrite H. done.
Qed.

(** Rows debited to an expense account are expense rows. *)
Lemma filter_expense_account (rows : list transaction) a :
  Text.startswith "Expenses:" a = true ->
  filter (fun t => debit_account t = a) (filter is_expense_row rows)
  = filter (fun t => debit_account t = a) rows.
Proof.
  intros Ha. induction rows as [|t rows IH]; [done|].
  rewrite (filter_cons is_expense_row), (filter_cons (fun t => debit_account t = a) t rows).
  destruct (decide (is_expense_row t)) as [He|He].
  - rewrite filter_cons. destruct (decide (debit_account t = a)); by rewrite IH.
  - rewrite IH. destruct (decide (debit_account t = a)) as [Hd|]; [|done].
    exfalso. apply He. unfold is_expense_row. by rewrite Hd.
Qed.

(** C8: with a reachable backend the expense summary lists one line per
    account of [groups]: these are exactly the debit accounts of the stored
    transactions whose name starts with [Expenses:], each once, with the sum
    of the amounts debited to it, ordered by that sum from largest to
    smallest.  The closing line prints the sum of the listed totals, which is
    also the sum of the amounts of all expense rows.  On the seven rows of
    [sample_rows], six expenses over three accounts and one income, the
    summary lists Expenses:General with 5045.00, Expenses:Food with 34.50
    and Expenses:Transport with 20.25, in that order, leaves the income out,
    and closes with the total 5099.75. *)
Theorem C8_expense_summary :
  (forall w,
      database w = Reachable ->
      exists groups : list (string * Z),
        NoDup (groups.*1) /\
        (forall a, a ∈ groups.*1 <->
                   Text.startswith "Expenses:" a = true /\
                   exists t, t ∈ transactions w /\ debit_account t = a) /\
        (forall a x, (a, x) ∈ groups -> x = debit_total (transactions w) a) /\
        StronglySorted largest_first groups /\
        get_expenses_summary w
        = (Return (expenses_header +:+
                   concat_lines
                     ((fun g => g.1 +:+ ": $" +:+ Num.render_cents g.2 +:+ Text.newline)
                        <$> groups) +:+
                   Text.newline +:+ "**Total Expenses: $" +:+
                   Num.render_cents (sum_Z (groups.*2)) +:+ "**"), w) /\
        sum_Z (groups.*2) = sum_amount (filter is_expense_row (transactions w))) /\
  get_expenses_summary w_sample
  = (Return (expenses_header +:+
             "Expenses:General: $5045.00" +:+ Text.newline +:+
             "Expenses:Food: $34.50" +:+ Text.newline +:+
             "Expenses:Transport: $20.25" +:+ Text.newline +:+
             Text.newline +:+ "**Total Expenses: $5099.75**"), w_sample).
Proof.
  split; [|by vm_compute].
  intros w Hdb. set (rows := transactions w).
  set (unsorted := group_sum debit_account (filter is_expense_row rows)).
  exists (expenses_query rows).
  assert (Hperm : expenses_query rows ≡ₚ unsorted) by apply merge_sort_Permutation.
  assert (Hkeys : forall a, a ∈ unsorted.*1 <->
                    Text.startswith "Expenses:" a = true /\
                    exists t, t ∈ rows /\ debit_account t = a).
  { intros a. unfold unsorted. rewrite group_sum_keys, elem_of_remove_dups.
    rewrite list_elem_of_fmap. split.
    - intros (t & -> & [He Ht]%list_elem_of_filter). split; [done|by exists t].
    - intros (Ha & t & Ht & <-). exists t. split; [done|].
      by apply list_elem_of_filter. }
  split.
  { rewrite Hperm. unfold unsorted. rewrite group_sum_keys.
    apply NoDup_remove_dups. }
  split.
  { intros a. by rewrite Hperm. }
  split.
  { intros a x Hin. rewrite Hperm in Hin.
    assert (Ha : a ∈ unsorted.*1).
    { apply list_elem_of_fmap. by exists (a, x). }
    apply Hkeys in Ha as [Ha _].
    apply group_sum_elem in Hin as [-> _].
    unfold debit_total. by rewrite filter_expense_account. }
  split; [apply StronglySorted_merge_sort; apply _|].
  split.
  { unfold get_expenses_summary. unfold_M. rewrite Hdb.
    rewrite summary_loop_spec. simpl. unfold total_line, expense_line.
    by rewrite !str_app_assoc. }
  rewrite (sum_Z_Permutation _ (unsorted.*2)); [apply group_sum_total|].
  by apply fmap_Permutation.
Qed.

Lemma C8_witness :
  exists groups : list (string * Z),
    NoDup (groups.*1) /\
    (forall a, a ∈ groups.*1 <->
               Text.startswith "Expenses:" a = true /\
               exists t, t ∈ transactions w_sample /\ debit_account t = a) /\
    (forall a x, (a, x) ∈ groups -> x = debit_total (transactions w_sample) a) /\
    StronglySorted largest_first groups /\
    get_expenses_summary w_sample
    = (Return (expenses_header +:+
               concat_lines
                 ((fun g => g.1 +:+ ": $" +:+ Num.render_cents g.2 +:+ Text.newline)
                    <$> groups) +:+
               Text.newline +:+ "**Total Expenses: $" +:+
               Num.render_cents (sum_Z (groups.*2)) +:+ "**"), w_sample) /\
    sum_Z (groups.*2) = sum_amount (filter is_expense_row (transactions w_sample)).
Proof. apply (proj1 C8_expense_summary w_sample). reflexivity. Defined.

(** ** Balances *)

Lemma total_for_cons a (r : string * Z) l :
  total_for a (r :: l) = (if decide (r.1 = a) then r.2 else 0) + total_for a l.
Proof.
  unfold total_for. rewrite filter_cons.
  destruct (decide (r.1 = a)); [by rewrite fmap_cons, sum_Z_cons|lia].
Qed.

Lemma total_for_app a (l1 l2 : list (string * Z)) :
  total_for a (l1 ++ l2) = total_for a l1 + total_for a l2.
Proof. unfold total_for. by rewrite filter_app, fmap_app, sum_Z_app. Qed.

Lemma total_for_negated a (l : list (string * Z)) :
  total_for a ((fun r => (r.1, - r.2)) <$> l) = - total_for a l.
Proof.
  induction l as [|r l IH]; [done|].
  rewrite fmap_cons, !total_for_cons, IH. simpl.
  destruct (decide (r.1 = a)); lia.
Qed.

Lemma total_for_absent a (l : list (string * Z)) :
  a ∉ l.*1 -> total_for a l = 0.
Proof.
  induction l as [|r l IH]; [done|].
  rewrite fmap_cons, not_elem_of_cons. intros [Hne Hni].
  rewrite total_for_cons, IH by done.
  by rewrite decide_False.
Qed.

Lemma total_for_keys (f : string -> Z) ks a :
  NoDup ks ->
  total_for a ((fun k => (k, f k)) <$> ks) = if decide (a ∈ ks) then f a else 0.
Proof.
  induction 1 as [|k ks Hni Hnd IH]; [done|].
  rewrite fmap_cons, total_for_cons, IH. simpl.
  destruct (decide (k = a)) as [->|Hne];
    destruct (decide (a ∈ ks)) as [Hin|Hin];
    destruct (decide (_ ∈ _ :: ks)) as [Hc|Hc];
    try lia; try done.
  - exfalso. apply Hc. left.
  - exfalso. apply Hc. by right.
  - exfalso. apply elem_of_cons in Hc as [->|?]; done.
Qed.

Lemma sum_amount_absent (key : transaction -> string) rows a :
  a ∉ key <$> rows -> sum_amount (filter (fun t => key t = a) rows) = 0.
Proof.
  induction rows as [|t rows IH]; [done|].
  rewrite fmap_cons, not_elem_of_cons. intros [Hne Hni].
  rewrite filter_cons, decide_False by done. by apply IH.
Qed.

(** The total the query reports for an account is the sum over its rows. *)
Lemma total_for_group_sum (key : transaction -> string) rows a :
  total_for a (group_sum key rows) = sum_amount (filter (fun t => key t = a) rows).
Proof.
  unfold group_sum.
  rewrite (total_for_keys
             (fun a => sum_amount (filter (fun t => key t = a) rows)))
    by apply NoDup_remove_dups.
  destruct (decide (a ∈ remove_dups (key <$> rows))) as [|Hni]; [done|].
  symmetry. apply sum_amount_absent. by rewrite <- elem_of_remove_dups.
Qed.

Lemma total_for_balances_query rows a :
  total_for a (balances_query rows) = balance_of rows a.
Proof.
  unfold balances_query, balance_of.
  rewrite total_for_app, total_for_negated, !total_for_group_sum. lia.
Qed.

(** The dictionary built by the accumulation loop. *)
Lemma foldl_accumulate_lookup l (m : gmap string Z) a :
  foldl accumulate m l !! a
  = match m !! a with
    | Some v => Some (v + total_for a l)
    | None => if decide (a ∈ l.*1) then Some (total_for a l) else None
    end.
Proof.
  revert m. induction l as [|r l IH]; intros m.
  - simpl. destruct (m !! a); [|done]. f_equal. unfold total_for. simpl.
    unfold sum_Z. simpl. lia.
  - cbn [foldl]. rewrite IH. unfold accumulate.
    rewrite lookup_insert, fmap_cons, total_for_cons.
    destruct (decide (r.1 = a)) as [Heq|Hne].
    + rewrite Heq. rewrite decide_True by left.
      destruct (m !! a); simpl; f_equal; lia.
    + destruct (m !! a); [f_equal; lia|].
      destruct (decide (a ∈ l.*1)) as [Hin|Hni].
      * rewrite decide_True by (by right). f_equal; lia.
      * rewrite decide_False; [done|]. intros [?|?]%elem_of_cons; by subst.
Qed.

Lemma balances_lookup rows a v :
  foldl accumulate ∅ (balances_query rows) !! a = Some v -> v = balance_of rows a.
Proof.
  rewrite foldl_accumulate_lookup, lookup_empty.
  destruct (decide _); [|done]. rewrite total_for_balances_query. by intros [= <-].
Qed.

Lemma balances_lookup_nonzero rows a :
  balance_of rows a <> 0 ->
  foldl accumulate ∅ (balances_query rows) !! a = Some (balance_of rows a).
Proof.
  intros Hb. rewrite foldl_accumulate_lookup, lookup_empty.
  destruct (decide (a ∈ (balances_query rows).*1)) as [|Hni].
  - by rewrite total_for_balances_query.
  - apply total_for_absent in Hni. rewrite total_for_balances_query in Hni. done.
Qed.

#[local] Instance item_le_trans : Transitive item_le.
Proof.
  intros x y z [Hxy Hxy'] [Hyz Hyz']. split; [by etrans|].
  intros Hxz. rewrite <- Hxz in Hyz.
  assert (x.1 = y.1) as Hxy1 by by apply (anti_symm String.le).
  assert (y.1 = z.1) as Hyz1 by congruence.
  specialize (Hxy' Hxy1). specialize (Hyz' Hyz1). lia.
Qed.

#[local] Instance item_le_total : Total item_le.
Proof.
  intros x y. unfold item_le.
  destruct (decide (x.1 = y.1)) as [Heq|Hne].
  - destruct (Z.le_ge_cases x.2 y.2); [left|right];
      (split; [rewrite Heq; done|intros _; lia]).
  - destruct (total String.le x.1 y.1); [left|right]; (split; [done|]);
      intros ?; congruence.
Qed.

Lemma StronglySorted_filter {A} (R : relation A) (P : A -> Prop)
    `{forall x, Decision (P x)} l :
  StronglySorted R l -> StronglySorted R (filter P l).
Proof.
  induction 1 as [|x l Hs IH Hall]; [constructor|].
  rewrite filter_cons. destruct (decide (P x)); [|done].
  constructor; [done|].
  apply Forall_forall. intros y [_ Hy]%list_elem_of_filter.
  by eapply Forall_forall in Hall.
Qed.

Lemma balance_lines rows (items : list (string * Z)) :
  Forall (fun it => it.2 = balance_of rows it.1) items ->
  concat_lines (balance_line <$> items)
  = concat_lines (account_line rows <$> (filter (fun it => it.2 <> 0) items).*1).
Proof.
  induction 1 as [|it items Hit _ IH]; [done|].
  rewrite fmap_cons, concat_lines_cons, filter_cons, IH.
  unfold balance_line at 1.
  destruct (Z.eqb_spec it.2 0) as [Hz|Hnz].
  - by rewrite decide_False by (intros ?; done).
  - rewrite decide_True by done.
    rewrite !fmap_cons, concat_lines_cons. unfold account_line at 2.
    by rewrite <- Hit.
Qed.

(** C4: with a reachable backend the balances report is the header followed
    by one line per account of [accounts]: these are exactly the accounts
    whose balance, the sum of the amounts debited to the account minus the
    sum of the amounts credited to it, is not zero, in ascending order of
    name and each once.  A line prints the absolute value of the balance with
    two decimals, then DR for a positive and CR for a negative balance.
    After the single expense [I spent $45 on lunch], stored as Expenses:Food
    against Assets:Cash, the report is the header and the lines
    [Assets:Cash: $45.00 CR] and [Expenses:Food: $45.00 DR]. *)
Theorem C4_balances_report :
  (forall w,
      database w = Reachable ->
      exists accounts : list string,
        StronglySorted String.le accounts /\ NoDup accounts /\
        (forall a, a ∈ accounts <-> balance_of (transactions w) a <> 0) /\
        get_balances w
        = (Return
             (balances_header +:+
              concat_lines
                ((fun a =>
                    a +:+ ": $" +:+
                    Num.render_cents (Z.abs (balance_of (transactions w) a)) +:+
                    " " +:+
                    (if 0 <? balance_of (transactions w) a then "DR" else "CR") +:+
                    Text.newline) <$> accounts)), w)) /\
  (let w1 := (process_natural_language keywords_only "I spent $45 on lunch" w0).2 in
   transactions w1
   = [Transaction 1 t0 "I spent $45 on lunch" "Expenses:Food" "Assets:Cash" 4500 true] /\
   get_balances w1
   = (Return (balances_header +:+
              "Assets:Cash: $45.00 CR" +:+ Text.newline +:+
              "Expenses:Food: $45.00 DR" +:+ Text.newline), w1)).
Proof.
  split; [|by vm_compute].
  intros w Hdb. set (rows := transactions w).
  set (balances := foldl accumulate ∅ (balances_query rows)).
  set (items := merge_sort item_le (map_to_list balances)).
  assert (Hperm : items ≡ₚ map_to_list balances) by apply merge_sort_Permutation.
  assert (Hitems : forall a v, (a, v) ∈ items <-> balances !! a = Some v).
  { intros a v. rewrite Hperm. apply elem_of_map_to_list. }
  assert (Hbal : Forall (fun it => it.2 = balance_of rows it.1) items).
  { apply Forall_forall. intros [a v] Hin. simpl.
    apply Hitems in Hin. by apply balances_lookup. }
  exists ((filter (fun it => it.2 <> 0) items).*1).
  split.
  { apply (StronglySorted_fmap fst item_le); [by intros x y [? _]|].
    apply StronglySorted_filter, StronglySorted_merge_sort; apply _. }
  split.
  { apply (sublist_NoDup _ (items.*1)).
    - rewrite Hperm. apply NoDup_fst_map_to_list.
    - apply fmap_sublist, sublist_filter. }
  split.
  { intros a. rewrite list_elem_of_fmap. split.
    - intros ([a' v] & -> & [Hnz Hin]%list_elem_of_filter). simpl in *.
      apply Hitems, balances_lookup in Hin. by rewrite <- Hin.
    - intros Hb. exists (a, balance_of rows a). split; [done|].
      apply list_elem_of_filter. split; [done|].
      apply Hitems. by apply balances_lookup_nonzero. }
  unfold get_balances. unfold_M. rewrite Hdb.
  rewrite render_loop. fold rows balances items.
  by rewrite (balance_lines rows items Hbal).
Qed.

Lemma C4_witness :
  exists accounts : list string,
    StronglySorted String.le accounts /\ NoDup accounts /\
    (forall a, a ∈ accounts <-> balance_of (transactions w0) a <> 0) /\
    get_balances w0
    = (Return
         (balances_header +:+
          concat_lines
            ((fun a =>
                a +:+ ": $" +:+
                Num.render_cents (Z.abs (balance_of (transactions w0) a)) +:+
                " " +:+
                (if 0 <? balance_of (transactions w0) a then "DR" else "CR") +:+
                Text.newline) <$> accounts)), w0).
Proof. apply (proj1 C4_balances_report w0). reflexivity. Defined.

(** * Further properties of the code *)

(** Membership in a list given by its elements. *)
Ltac in_list :=
  repeat first [apply list_elem_of_here | apply list_elem_of_further].

(** ** The handlers, case by case *)

Lemma record_expense_spec text w :
  record_expense text w
  = match extract_amount text with
    | None => (Return no_amount_expense, w)
    | Some x =>
        match database w with
        | NoDatabaseUrl => (Raise AttributeError, w)
        | Unreachable => (Raise OperationalError, w)
        | Reachable =>
            match Num.numeric_10_2 x with
            | Some c => (Return (expense_reply text x), stored w (expense_row text c w))
            | None => (Raise NumericValueOutOfRange, w)
            end
        end
    end.
Proof.
  unfold record_expense, extract_amount.
  destruct (amount_match text) as [g|] eqn:Hg; [|done].
  destruct (amount_match_float _ _ Hg) as [x Hx]. rewrite Hx.
  unfold_M. rewrite Hx. destruct (database w) eqn:Hdb; [done..|].
  destruct (Num.numeric_10_2 x); [|done].
  unfold stored, expense_row. by rewrite Hdb.
Qed.

Lemma record_income_spec text w :
  record_income text w
  = match extract_amount text with
    | None => (Return no_amount_income, w)
    | Some x =>
        match database w with
        | NoDatabaseUrl => (Raise AttributeError, w)
        | Unreachable => (Raise OperationalError, w)
        | Reachable =>
            match Num.numeric_10_2 x with
            | Some c => (Return (income_reply text x), stored w (income_row text c w))
            | None => (Raise NumericValueOutOfRange, w)
            end
        end
    end.
Proof.
  unfold record_income, extract_amount.
  destruct (amount_match text) as [g|] eqn:Hg; [|done].
  destruct (amount_match_float _ _ Hg) as [x Hx]. rewrite Hx.
  unfold_M. rewrite Hx. destruct (database w) eqn:Hdb; [done..|].
  destruct (Num.numeric_10_2 x); [|done].
  unfold stored, income_row. by rewrite Hdb.
Qed.

(** The router ends in one handler: the one of the routed intent, or, when
    that one raised inside the model branch, the one the keywords choose,
    run on the same state. *)
Lemma process_is_handler self text w :
  process_natural_language self text w
  = handler_of (routed_intent self text) text w \/
  (exists e, handler_of (routed_intent self text) text w = (Raise e, w)) /\
  process_natural_language self text w
  = handler_of (heuristic_intent text) text w.
Proof.
  unfold routed_intent.
  destruct (client self) as [model|] eqn:Hc.
  - destruct (model text) as [r|e] eqn:Hm.
    + rewrite (process_with_answer _ _ _ _ _ Hc Hm). unfold try_except.
      destruct (handler_of (response_intent r) text w) as [[reply|e] w'] eqn:Hh.
      * by left.
      * right. pose proof (handler_raise_state _ _ _ _ _ Hh) as ->.
        split; [by exists e|]. by rewrite pattern_matching_handler.
    + left. by rewrite (process_model_raises _ _ _ _ _ Hc Hm),
        pattern_matching_handler.
  - left. by rewrite (process_keywords_only _ _ _ Hc), pattern_matching_handler.
Qed.

Lemma handle_query_spec text w :
  (database w = Reachable /\ exists report, handle_query text w = (Return report, w)) \/
  (database w <> Reachable /\
   handle_query text w = (Raise (storage_exn (database w)), w)).
Proof.
  destruct (database w) eqn:Hdb.
  - right. rewrite <- Hdb. split; [by rewrite Hdb|].
    apply handle_query_no_backend. by rewrite Hdb.
  - right. rewrite <- Hdb. split; [by rewrite Hdb|].
    apply handle_query_no_backend. by rewrite Hdb.
  - left. split; [done|]. by apply handle_query_reachable.
Qed.

(** Without a reachable backend no handler changes the state. *)
Lemma handler_state_no_backend intent text w :
  database w <> Reachable -> (handler_of intent text w).2 = w.
Proof.
  intros Hdb. destruct intent; simpl.
  - rewrite record_expense_spec. destruct (extract_amount text); [|done].
    by destruct (database w).
  - rewrite record_income_spec. destruct (extract_amount text); [|done].
    by destruct (database w).
  - apply handle_query_state.
  - done.
Qed.

(** What a handler can raise. *)
Lemma handler_raise_cases intent text w e w' :
  handler_of intent text w = (Raise e, w') ->
  w' = w /\
  (database w <> Reachable /\ e = storage_exn (database w) \/
   database w = Reachable /\ e = NumericValueOutOfRange).
Proof.
  intros H. pose proof (handler_raise_state _ _ _ _ _ H) as ->.
  split; [done|]. destruct intent; simpl in H.
  - rewrite record_expense_spec in H. destruct (extract_amount text); [|done].
    destruct (database w); [left|left|right].
    + by injection H as <-.
    + by injection H as <-.
    + destruct (Num.numeric_10_2 d); [done|]. by injection H as <-.
  - rewrite record_income_spec in H. destruct (extract_amount text); [|done].
    destruct (database w); [left|left|right].
    + by injection H as <-.
    + by injection H as <-.
    + destruct (Num.numeric_10_2 d); [done|]. by injection H as <-.
  - destruct (handle_query_spec text w) as [[_ [report Hr]]|[Hdb Hr]];
      rewrite Hr in H; [done|]. left. split; [done|]. by injection H as <-.
  - done.
Qed.

(** The rows a handler adds. *)
Lemma handler_rows intent text w :
  (handler_of intent text w).2 = w \/
  exists x c,
    extract_amount text = Some x /\ Num.numeric_10_2 x = Some c /\
    database w = Reachable /\
    (intent = Expense /\ (handler_of intent text w).2 = stored w (expense_row text c w) \/
     intent = Income /\ (handler_of intent text w).2 = stored w (income_row text c w)).
Proof.
  destruct intent; simpl.
  - rewrite record_expense_spec.
    destruct (extract_amount text) as [x|]; [|by left].
    destruct (database w) eqn:Hdb; [by left..|].
    destruct (Num.numeric_10_2 x) as [c|] eqn:Hc; [|by left].
    right. exists x, c. eauto 10.
  - rewrite record_income_spec.
    destruct (extract_amount text) as [x|]; [|by left].
    destruct (database w) eqn:Hdb; [by left..|].
    destruct (Num.numeric_10_2 x) as [c|] eqn:Hc; [|by left].
    right. exists x, c. eauto 10.
  - left. apply handle_query_state.
  - by left.
Qed.

Lemma numeric_10_2_range x c :
  0 <= mant x -> Num.numeric_10_2 x = Some c -> 0 <= c < 10 ^ 10.
Proof.
  intros Hx Hc. pose proof (numeric_10_2_nonneg x c Hx Hc) as Hnn.
  unfold Num.numeric_10_2 in Hc.
  destruct (Z.ltb_spec (Z.abs (Num.to_cents Num.round_half_away x)) (10 ^ 10));
    [|done].
  injection Hc as <-. lia.
Qed.

Lemma extract_amount_nonneg text x : extract_amount text = Some x -> 0 <= mant x.
Proof.
  unfold extract_amount. destruct (amount_match text); [|done].
  apply float_of_string_nonneg.
Qed.

Lemma categorize_cases text :
  categorize text = "Expenses:Food" \/ categorize text = "Expenses:Transport" \/
  categorize text = "Expenses:General".
Proof. unfold categorize. repeat destruct (Text.any_in _ _); auto. Qed.

(** ** What a request stores *)

(** X1: a request routed to Expense whose text, plain text (ASCII without
    the NUL character), has an amount written with at most two decimals that
    the reachable backend accepts is answered with the confirmation
    (category, amount with two decimals, the text) and appends exactly one
    row: the next id, the current time, the raw text as description, the
    category of the text as debit account, Assets:Cash as credit account,
    the amount, and the flag set.  The category is one of Expenses:Food,
    Expenses:Transport and Expenses:General. *)
Theorem X1_expense_request_is_stored self text x c w :
  Text.is_plain text = true ->
  routed_intent self text = Expense ->
  extract_amount text = Some x ->
  (scale x <= 2)%nat ->
  database w = Reachable ->
  Num.numeric_10_2 x = Some c ->
  process_natural_language self text w
  = (Return ("✓ Recorded: " +:+ categorize text +:+ " $" +:+ Num.format_2f x +:+
             Text.newline +:+ "Description: " +:+ text),
     World Reachable
       (transactions w ++
        [Transaction (next_id w) (now w) text (categorize text) "Assets:Cash"
                     c true])
       (next_id w + 1) (now w)) /\
  categorize text ∈ ["Expenses:Food"; "Expenses:Transport"; "Expenses:General"].
Proof.
  intros _ Hi Hx _ Hdb Hc.
  assert (Hh : handler_of Expense text w
               = (Return (expense_reply text x), stored w (expense_row text c w))).
  { simpl. by rewrite record_expense_spec, Hx, Hdb, Hc. }
  split.
  - destruct (process_is_handler self text w) as [->|[[e He] _]];
      rewrite Hi in *; [|by rewrite Hh in He].
    rewrite Hh. unfold stored, expense_row, expense_reply. by rewrite Hdb.
  - destruct (categorize_cases text) as [->|[->| ->]]; in_list.
Qed.

Lemma X1_witness :
  process_natural_language keywords_only "I bought coffee for $4.50" w0
  = (Return ("✓ Recorded: " +:+ categorize "I bought coffee for $4.50" +:+ " $" +:+
             Num.format_2f (Dec 450 2) +:+
             Text.newline +:+ "Description: " +:+ "I bought coffee for $4.50"),
     World Reachable
       (transactions w0 ++
        [Transaction (next_id w0) (now w0) "I bought coffee for $4.50"
                     (categorize "I bought coffee for $4.50") "Assets:Cash"
                     450 true])
       (next_id w0 + 1) (now w0)) /\
  categorize "I bought coffee for $4.50"
    ∈ ["Expenses:Food"; "Expenses:Transport"; "Expenses:General"].
Proof.
  apply (X1_expense_request_is_stored keywords_only "I bought coffee for $4.50"
           (Dec 450 2) 450 w0); first [reflexivity | simpl; lia].
Defined.

(** X2: a request routed to Income whose text, plain text (ASCII without
    the NUL character), has an amount written with at most two decimals that
    the reachable backend accepts is answered with the income confirmation
    and appends exactly one row debited to Assets:Bank and credited to
    Revenue:Sales, with the next id, the current time, the raw text, the
    amount and the flag set. *)
Theorem X2_income_request_is_stored self text x c w :
  Text.is_plain text = true ->
  routed_intent self text = Income ->
  extract_amount text = Some x ->
  (scale x <= 2)%nat ->
  database w = Reachable ->
  Num.numeric_10_2 x = Some c ->
  process_natural_language self text w
  = (Return ("✓ Recorded income: $" +:+ Num.format_2f x +:+
             Text.newline +:+ "Description: " +:+ text),
     World Reachable
       (transactions w ++
        [Transaction (next_id w) (now w) text "Assets:Bank" "Revenue:Sales"
                     c true])
       (next_id w + 1) (now w)).
Proof.
  intros _ Hi Hx _ Hdb Hc.
  assert (Hh : handler_of Income text w
               = (Return (income_reply text x), stored w (income_row text c w))).
  { simpl. by rewrite record_income_spec, Hx, Hdb, Hc. }
  destruct (process_is_handler self text w) as [->|[[e He] _]];
    rewrite Hi in *; [|by rewrite Hh in He].
  rewrite Hh. unfold stored, income_row, income_reply. by rewrite Hdb.
Qed.

Lemma X2_witness :
  process_natural_language keywords_only "I received $1200 today" w0
  = (Return ("✓ Recorded income: $" +:+ Num.format_2f (Dec 1200 0) +:+
             Text.newline +:+ "Description: " +:+ "I received $1200 today"),
     World Reachable
       (transactions w0 ++
        [Transaction (next_id w0) (now w0) "I received $1200 today"
                     "Assets:Bank" "Revenue:Sales" 120000 true])
       (next_id w0 + 1) (now w0)).
Proof.
  apply (X2_income_request_is_stored keywords_only "I received $1200 today"
           (Dec 1200 0) 120000 w0); first [reflexivity | simpl; lia].
Defined.

(** The rows one request adds, whatever the route. *)
Lemma process_rows self text w :
  (process_natural_language self text w).2 = w \/
  exists x c,
    extract_amount text = Some x /\ Num.numeric_10_2 x = Some c /\
    database w = Reachable /\
    ((process_natural_language self text w).2 = stored w (expense_row text c w) \/
     (process_natural_language self text w).2 = stored w (income_row text c w)).
Proof.
  assert (H : exists i, process_natural_language self text w = handler_of i text w).
  { destruct (process_is_handler self text w) as [->|[_ ->]]; eauto. }
  destruct H as [i ->].
  destruct (handler_rows i text w) as [?|(x & c & ? & ? & ? & [[_ ?]|[_ ?]])];
    [by left|right; exists x, c; eauto..].
Qed.

(** X3: a request leaves the stored rows in place and adds at most one.  A
    row it adds has the next id, the time of the request, the raw text as
    description and the flag set; its amount lies between 0 and
    99999999.99; its debit and credit accounts differ and are one of the
    pairs (Expenses:Food, Expenses:Transport or Expenses:General,
    Assets:Cash) and (Assets:Bank, Revenue:Sales).  Each of these accounts
    is listed in [COMMON_ACCOUNTS], except Expenses:General, which the
    dictionary does not have. *)
Theorem X3_added_rows_are_well_formed self text w :
  ("Expenses:General"
     ∉ common "income" ++ (common "expenses" ++ (common "assets" ++
       common "liabilities"))) /\
  exists new,
    transactions (process_natural_language self text w).2 = transactions w ++ new /\
    (length new <= 1)%nat /\
    forall t, t ∈ new ->
      row_id t = next_id w /\ date t = now w /\ description t = text /\
      ai_categorized t = true /\ 0 <= amount t < 10 ^ 10 /\
      debit_account t <> credit_account t /\
      (debit_account t, credit_account t)
        ∈ [("Expenses:Food", "Assets:Cash"); ("Expenses:Transport", "Assets:Cash");
           ("Expenses:General", "Assets:Cash"); ("Assets:Bank", "Revenue:Sales")] /\
      (forall a, a ∈ [debit_account t; credit_account t] ->
                 a = "Expenses:General" \/
                 a ∈ common "expenses" ++ common "assets" ++ common "income").
Proof.
  split; [by apply (bool_decide_unpack _); vm_compute|].
  destruct (process_rows self text w) as [->|(x & c & Hx & Hc & Hdb & [-> | ->])].
  - exists []. rewrite app_nil_r. split; [done|]. split; [simpl; lia|].
    by intros t ?%elem_of_nil.
  - exists [expense_row text c w]. split; [done|]. split; [simpl; lia|].
    intros t ->%list_elem_of_singleton. simpl.
    pose proof (numeric_10_2_range x c (extract_amount_nonneg _ _ Hx) Hc) as Hrange.
    do 5 (split; [done|]).
    destruct (categorize_cases text) as [->|[->| ->]];
      (split; [done|]); (split; [in_list|]);
      intros a [->|[->|?%elem_of_nil]%elem_of_cons]%elem_of_cons;
      try done; first [by left | right; vm_compute; in_list].
  - exists [income_row text c w]. split; [done|]. split; [simpl; lia|].
    intros t ->%list_elem_of_singleton. simpl.
    pose proof (numeric_10_2_range x c (extract_amount_nonneg _ _ Hx) Hc) as Hrange.
    do 5 (split; [done|]). split; [done|]. split; [in_list|].
    intros a [->|[->|?%elem_of_nil]%elem_of_cons]%elem_of_cons;
      try done; right; vm_compute; in_list.
Qed.

(** X4: without a reachable backend (no [DATABASE_URL], or a connection
    that fails) no request changes the state, whoever classifies it. *)
Theorem X4_no_write_without_backend self text w :
  database w <> Reachable ->
  (process_natural_language self text w).2 = w.
Proof.
  intros Hdb.
  destruct (process_rows self text w) as [?|(x & c & _ & _ & Hr & _)]; [done|].
  by rewrite Hr in Hdb.
Qed.

Lemma X4_witness :
  (process_natural_language (answering "EXPENSE") "I spent $45 on groceries"
     w_nodb).2 = w_nodb.
Proof.
  apply (X4_no_write_without_backend (answering "EXPENSE")
           "I spent $45 on groceries" w_nodb).
  simpl. discriminate.
Defined.

(** X5: a request routed to Query or to Unknown does not change the state,
    when it is routed by the keywords (no model, or a failed model call) or
    the backend is reachable: reports only read and the guidance text
    touches nothing. *)
Theorem X5_queries_do_not_write self text w :
  keyword_path self text = true \/ database w = Reachable ->
  routed_intent self text = Query \/ routed_intent self text = Unknown ->
  (process_natural_language self text w).2 = w.
Proof.
  intros _ Hi.
  destruct (process_is_handler self text w) as [->|[[e He] ->]].
  - destruct Hi as [-> | ->]; simpl; [apply handle_query_state|done].
  - apply handler_state_no_backend.
    destruct (handler_raise_cases _ _ _ _ _ He) as [_ [[Hdb _]|[Hdb ->]]];
      [done|].
    destruct Hi as [Hi|Hi]; rewrite Hi in He; simpl in He; [|done].
    destruct (handle_query_reachable text w Hdb) as [report Hr].
    by rewrite Hr in He.
Qed.

Lemma X5_witness :
  (process_natural_language (answering "QUERY: balances") "I spent $45 on food"
     w0).2 = w0.
Proof.
  apply (X5_queries_do_not_write (answering "QUERY: balances")
           "I spent $45 on food" w0).
  - right. reflexivity.
  - left. reflexivity.
Defined.

(** X6: an exception that leaves the router on a plain text (ASCII without
    the NUL character, which the driver refuses with a [ValueError] of its
    own) comes from storage and from nowhere else: the state is unchanged, and either the backend is not
    reachable and the exception is the one of the connection (AttributeError
    without [DATABASE_URL], OperationalError otherwise), or the reachable
    backend rejected the amount.  A failure of the model call and a
    [ValueError] of [float] never reach the caller. *)
Theorem X6_only_storage_exceptions_escape self text w e w' :
  Text.is_plain text = true ->
  process_natural_language self text w = (Raise e, w') ->
  w' = w /\
  (database w <> Reachable /\ e = storage_exn (database w) \/
   database w = Reachable /\ e = NumericValueOutOfRange) /\
  e <> APIError /\ e <> ValueError.
Proof.
  intros _ H.
  assert (Hh : exists i, handler_of i text w = (Raise e, w')).
  { destruct (process_is_handler self text w) as [Hp|[_ Hp]];
      rewrite Hp in H; eauto. }
  destruct Hh as [i Hh].
  destruct (handler_raise_cases _ _ _ _ _ Hh) as [-> Hcases].
  split; [done|]. split; [done|].
  destruct Hcases as [[_ ->]|[_ ->]]; [by destruct (database w)|done].
Qed.

Lemma X6_witness :
  w_nodb = w_nodb /\
  (database w_nodb <> Reachable /\ AttributeError = storage_exn (database w_nodb) \/
   database w_nodb = Reachable /\ AttributeError = NumericValueOutOfRange) /\
  AttributeError <> APIError /\ AttributeError <> ValueError.
Proof.
  apply (X6_only_storage_exceptions_escape keywords_only
           "I spent $45 on groceries" w_nodb AttributeError w_nodb);
    reflexivity.
Defined.

(** X7: with [ANTHROPIC_API_KEY] unset or empty the accountant has no
    client, and then, as when the model call raises, every request is
    answered by the keyword path alone: same reply, same state. *)
Theorem X7_keyword_path_without_model api_key anthropic text w :
  api_key = None \/ api_key = Some "" \/
  (exists key e, api_key = Some key /\ anthropic key text = Raise e) ->
  process_natural_language (AIAccountant_init api_key anthropic) text w
  = pattern_matching text w /\
  process_natural_language (AIAccountant_init api_key anthropic) text w
  = process_natural_language keywords_only text w.
Proof.
  intros H.
  assert (Hp : process_natural_language (AIAccountant_init api_key anthropic) text w
               = pattern_matching text w).
  { destruct H as [->|[->|(key & e & -> & He)]]; [done..|].
    destruct key as [|c key]; [done|].
    by apply (process_model_raises _ (anthropic (String c key)) e). }
  split; [done|]. by rewrite Hp.
Qed.

Lemma X7_witness :
  process_natural_language
    (AIAccountant_init (Some "") (fun _ _ => Return "INCOME"))
    "I spent $45 on groceries" w0
  = pattern_matching "I spent $45 on groceries" w0 /\
  process_natural_language
    (AIAccountant_init (Some "") (fun _ _ => Return "INCOME"))
    "I spent $45 on groceries" w0
  = process_natural_language keywords_only "I spent $45 on groceries" w0.
Proof.
  apply (X7_keyword_path_without_model (Some "") (fun _ _ => Return "INCOME")).
  right. left. reflexivity.
Defined.

(** X8: a request routed to Unknown (no model answer and none of the
    trigger words in the text) gets the guidance text and leaves the state
    as it is, whatever the backend. *)
Theorem X8_unknown_gets_guidance self text w :
  routed_intent self text = Unknown ->
  process_natural_language self text w = (Return guidance, w).
Proof.
  intros Hi.
  destruct (process_is_handler self text w) as [->|[[e He] _]];
    rewrite Hi in *; simpl in *; done.
Qed.

Lemma X8_witness :
  process_natural_language keywords_only "hello there" w_nodb
  = (Return guidance, w_nodb).
Proof.
  apply (X8_unknown_gets_guidance keywords_only "hello there" w_nodb).
  reflexivity.
Defined.

(** ** Case *)

Lemma lower_ascii_idemp c : Text.lower_ascii (Text.lower_ascii c) = Text.lower_ascii c.
Proof. by destruct c as [[] [] [] [] [] [] [] []]. Qed.

Lemma lower_idemp s : Text.lower (Text.lower s) = Text.lower s.
Proof.
  induction s as [|c s IH]; [done|]. simpl. by rewrite lower_ascii_idemp, IH.
Qed.

(** X9: the keyword classification, the expense category and the choice of
    report look at the lowercase form of the text only: lowering a text
    changes none of them, and two texts that differ in case alone are
    classified, categorized and answered by the same report. *)
Theorem X9_keywords_ignore_case :
  (forall text,
      heuristic_intent (Text.lower text) = heuristic_intent text /\
      categorize (Text.lower text) = categorize text /\
      handle_query (Text.lower text) = handle_query text) /\
  (forall text1 text2,
      Text.lower text1 = Text.lower text2 ->
      heuristic_intent text1 = heuristic_intent text2 /\
      categorize text1 = categorize text2 /\
      handle_query text1 = handle_query text2).
Proof.
  split.
  - intros text. unfold heuristic_intent, categorize, handle_query.
    by rewrite lower_idemp.
  - intros text1 text2 H. unfold heuristic_intent, categorize, handle_query.
    by rewrite H.
Qed.

Lemma X9_witness :
  heuristic_intent "I SPENT $5 ON COFFEE" = heuristic_intent "i spent $5 on coffee" /\
  categorize "I SPENT $5 ON COFFEE" = categorize "i spent $5 on coffee" /\
  handle_query "I SPENT $5 ON COFFEE" = handle_query "i spent $5 on coffee".
Proof. apply (proj2 X9_keywords_ignore_case). reflexivity. Defined.

(** ** Recording, then reporting *)


Lemma routed_income_state self text x c w :
  routed_intent self text = Income -> extract_amount text = Some x ->
  database w = Reachable -> Num.numeric_10_2 x = Some c ->
  (process_natural_language self text w).2 = stored w (income_row text c w).
Proof.
  intros Hi Hx Hdb Hc.
  assert (Hh : handler_of Income text w
               = (Return (income_reply text x), stored w (income_row text c w))).
  { simpl. by rewrite record_income_spec, Hx, Hdb, Hc. }
  destruct (process_is_handler self text w) as [->|[[e He] _]];
    rewrite Hi in *; [by rewrite Hh|by rewrite Hh in He].
Qed.








(** ** Debits and credits cancel *)

Lemma sum_Z_zero (f : string -> Z) l :
  (forall a, a ∈ l -> f a = 0) -> sum_Z (f <$> l) = 0.
Proof.
  induction l as [|a l IH]; intros H; [done|].
  rewrite fmap_cons, sum_Z_cons, H by left.
  rewrite IH; [done|]. intros b Hb. apply H. by right.
Qed.

Lemma sum_Z_minus (f g : string -> Z) l :
  sum_Z ((fun a => f a - g a) <$> l) = sum_Z (f <$> l) - sum_Z (g <$> l).
Proof.
  induction l as [|a l IH]; [done|]. rewrite !fmap_cons, !sum_Z_cons, IH. lia.
Qed.

(** Over accounts that cover the table, the balances add up to zero. *)
Lemma balances_cancel_covering rows accts :
  NoDup accts ->
  (forall t, t ∈ rows -> debit_account t ∈ accts /\ credit_account t ∈ accts) ->
  sum_Z (balance_of rows <$> accts) = 0.
Proof.
  intros Hnd Hcov. unfold balance_of.
  rewrite (sum_Z_minus
             (fun a => sum_amount (filter (fun t => debit_account t = a) rows))
             (fun a => sum_amount (filter (fun t => credit_account t = a) rows))).
  rewrite (sum_groups debit_account), (sum_groups credit_account);
    [lia|done|..|done|]; intros t Ht; by apply Hcov.
Qed.

Lemma balance_of_absent rows a :
  a ∉ debit_account <$> rows -> a ∉ credit_account <$> rows ->
  balance_of rows a = 0.
Proof.
  intros Hd Hc. unfold balance_of.
  by rewrite !sum_amount_absent.
Qed.

Lemma balances_cancel rows accts :
  NoDup accts ->
  (forall a, balance_of rows a <> 0 -> a ∈ accts) ->
  sum_Z (balance_of rows <$> accts) = 0.
Proof.
  intros Hnd Hall.
  set (all := remove_dups (accts ++ (debit_account <$> rows)
                                 ++ (credit_account <$> rows))).
  assert (Hall_nd : NoDup all) by apply NoDup_remove_dups.
  assert (Hin : forall a, a ∈ all <->
                          a ∈ accts \/ a ∈ debit_account <$> rows \/
                          a ∈ credit_account <$> rows).
  { intros a. unfold all. by rewrite elem_of_remove_dups, !elem_of_app. }
  assert (Hzero : sum_Z (balance_of rows <$> all) = 0).
  { apply balances_cancel_covering; [done|]. intros t Ht. split; apply Hin.
    - right; left. by apply list_elem_of_fmap_2.
    - right; right. by apply list_elem_of_fmap_2. }
  assert (Hsplit : all ≡ₚ accts ++ filter (fun a => a ∉ accts) all).
  { rewrite <- (filter_app_complement (fun a => a ∈ accts) all) at 1.
    apply Permutation_app; [|done].
    apply NoDup_Permutation; [by apply NoDup_filter|done|].
    intros a. rewrite list_elem_of_filter, Hin. split; [by intros [? _]|].
    intros Ha. split; [done|by left]. }
  rewrite (sum_Z_Permutation _ _ (fmap_Permutation (balance_of rows) _ _ Hsplit))
    in Hzero.
  rewrite fmap_app, sum_Z_app in Hzero.
  rewrite (sum_Z_zero (balance_of rows) (filter _ all)) in Hzero; [lia|].
  intros a [Hni _]%list_elem_of_filter.
  destruct (decide (balance_of rows a = 0)) as [|Hne]; [done|].
  by apply Hall in Hne.
Qed.

(** The rendering loop of [get_balances] prints the entries other than zero. *)
Lemma balance_lines_nonzero (items : list (string * Z)) :
  concat_lines (balance_line <$> items)
  = concat_lines
      ((fun e => e.1 +:+ ": $" +:+ Num.render_cents (Z.abs e.2) +:+ " " +:+
                 (if 0 <? e.2 then "DR" else "CR") +:+ Text.newline)
         <$> filter (fun it => it.2 <> 0) items).
Proof.
  induction items as [|it items IH]; [done|].
  rewrite fmap_cons, concat_lines_cons, filter_cons, IH.
  unfold balance_line at 1.
  destruct (Z.eqb_spec it.2 0) as [Hz|Hnz].
  - by rewrite decide_False by (intros ?; done).
  - rewrite decide_True by done. by rewrite fmap_cons, concat_lines_cons.
Qed.

(** X12: with a reachable backend the amounts the balances report prints
    add up to zero, a DR line counted as it stands and a CR line negated:
    the report is the header and one line per entry of [entries], each the
    balance of its account and other than zero, and the entries sum to zero,
    since what is debited somewhere is credited somewhere else.  On the
    seven rows of [sample_rows] the report has six lines, 1200.00 DR,
    5099.75 CR, 34.50 DR, 5045.00 DR, 20.25 DR and 1200.00 CR. *)
Theorem X12_printed_balances_add_up_to_zero :
  (forall w,
      database w = Reachable ->
      exists entries : list (string * Z),
        get_balances w
        = (Return
             (balances_header +:+
              concat_lines
                ((fun e =>
                    e.1 +:+ ": $" +:+ Num.render_cents (Z.abs e.2) +:+ " " +:+
                    (if 0 <? e.2 then "DR" else "CR") +:+ Text.newline)
                   <$> entries)), w) /\
        Forall (fun e => e.2 = balance_of (transactions w) e.1 /\ e.2 <> 0) entries /\
        sum_Z (entries.*2) = 0) /\
  get_balances w_sample
  = (Return (balances_header +:+
             "Assets:Bank: $1200.00 DR" +:+ Text.newline +:+
             "Assets:Cash: $5099.75 CR" +:+ Text.newline +:+
             "Expenses:Food: $34.50 DR" +:+ Text.newline +:+
             "Expenses:General: $5045.00 DR" +:+ Text.newline +:+
             "Expenses:Transport: $20.25 DR" +:+ Text.newline +:+
             "Revenue:Sales: $1200.00 CR" +:+ Text.newline), w_sample).
Proof.
  split; [|by vm_compute].
  intros w Hdb. set (rows := transactions w).
  set (balances := foldl accumulate ∅ (balances_query rows)).
  set (items := merge_sort item_le (map_to_list balances)).
  assert (Hperm : items ≡ₚ map_to_list balances) by apply merge_sort_Permutation.
  assert (Hitems : forall a v, (a, v) ∈ items <-> balances !! a = Some v).
  { intros a v. rewrite Hperm. apply elem_of_map_to_list. }
  set (entries := filter (fun it : string * Z => it.2 <> 0) items).
  assert (Hbal : forall e, e ∈ entries -> e.2 = balance_of rows e.1 /\ e.2 <> 0).
  { intros [a v] [Hnz Hin]%list_elem_of_filter. simpl in *. split; [|done].
    apply Hitems in Hin. by apply balances_lookup. }
  exists entries. split.
  { unfold get_balances. unfold_M. rewrite Hdb.
    rewrite render_loop. fold rows balances items.
    by rewrite balance_lines_nonzero. }
  split; [by apply Forall_forall|].
  assert (Hvals : entries.*2 = balance_of rows <$> entries.*1).
  { rewrite <- !list_fmap_compose. apply list_fmap_ext.
    intros i e Hi. simpl. apply list_elem_of_lookup_2 in Hi.
    by apply Hbal. }
  rewrite Hvals. apply balances_cancel.
  - apply (sublist_NoDup _ (items.*1)).
    + rewrite Hperm. apply NoDup_fst_map_to_list.
    + apply fmap_sublist, sublist_filter.
  - intros a Hne. apply list_elem_of_fmap. exists (a, balance_of rows a).
    split; [done|]. apply list_elem_of_filter. split; [done|].
    apply Hitems. by apply balances_lookup_nonzero.
Qed.

Lemma X12_witness :
  exists entries : list (string * Z),
    get_balances w_sample
    = (Return
         (balances_header +:+
          concat_lines
            ((fun e =>
                e.1 +:+ ": $" +:+ Num.render_cents (Z.abs e.2) +:+ " " +:+
                (if 0 <? e.2 then "DR" else "CR") +:+ Text.newline)
               <$> entries)), w_sample) /\
    Forall (fun e => e.2 = balance_of (transactions w_sample) e.1 /\ e.2 <> 0) entries /\
    sum_Z (entries.*2) = 0.
Proof. apply (proj1 X12_printed_balances_add_up_to_zero w_sample). reflexivity. Defined.

(** ** Recording, then the expense summary *)




(** X14: recording an income leaves the expense summary as it was: the
    report after the request is the report before it. *)
Theorem X14_income_keeps_summary self text x c w :
  routed_intent self text = Income ->
  extract_amount text = Some x ->
  database w = Reachable ->
  Num.numeric_10_2 x = Some c ->
  (get_expenses_summary (process_natural_language self text w).2).1
  = (get_expenses_summary w).1.
Proof.
  intros Hi Hx Hdb Hc.
  rewrite (routed_income_state _ _ _ _ _ Hi Hx Hdb Hc).
  unfold get_expenses_summary. unfold_M. simpl. rewrite Hdb. simpl.
  unfold expenses_query. rewrite filter_app, filter_cons, filter_nil.
  rewrite decide_False by done. by rewrite app_nil_r.
Qed.

Lemma X14_witness :
  (get_expenses_summary
     (process_natural_language keywords_only "I received $1200 today" w0).2).1
  = (get_expenses_summary w0).1.
Proof.
  apply (X14_income_keeps_summary keywords_only "I received $1200 today"
           (Dec 1200 0) 120000 w0); reflexivity.
Defined.

(** ** Reports on an empty table *)

(** X15: on an empty table, behind a reachable backend, the balances report
    and the recent-transactions report are their header alone, and the
    expense summary is its header followed by a total of 0.00. *)
Theorem X15_reports_on_empty_table w :
  database w = Reachable -> transactions w = [] ->
  get_balances w = (Return ("**Account Balances:**" +:+ Text.newline), w) /\
  get_recent_transactions w
  = (Return ("**Recent Transactions:**" +:+ Text.newline), w) /\
  get_expenses_summary w
  = (Return ("**Expense Summary:**" +:+ Text.newline +:+ Text.newline +:+
             "**Total Expenses: $0.00**"), w).
Proof.
  intros Hdb Hrows.
  unfold get_balances, get_recent_transactions, get_expenses_summary.
  unfold_M. rewrite Hdb, Hrows. by vm_compute.
Qed.

Lemma X15_witness :
  get_balances w0 = (Return ("**Account Balances:**" +:+ Text.newline), w0) /\
  get_recent_transactions w0
  = (Return ("**Recent Transactions:**" +:+ Text.newline), w0) /\
  get_expenses_summary w0
  = (Return ("**Expense Summary:**" +:+ Text.newline +:+ Text.newline +:+
             "**Total Expenses: $0.00**"), w0).
Proof. apply (X15_reports_on_empty_table w0); reflexivity. Defined.

(** ** The newest row *)

(** A row newer than all the others comes first when sorted by date. *)
Lemma newest_row_first (rows sorted : list transaction) t :
  sorted ≡ₚ rows ++ [t] -> StronglySorted newest_first sorted ->
  (forall r, r ∈ rows -> timestamp (date r) < timestamp (date t)) ->
  exists tl, sorted = t :: tl.
Proof.
  intros Hperm Hsorted Hnew.
  destruct sorted as [|h tl].
  { apply Permutation_nil_l in Hperm. by destruct rows. }
  exists tl. f_equal.
  assert (Hh : h ∈ rows ++ [t]) by (rewrite <- Hperm; left).
  apply elem_of_app in Hh as [Hh|Hh]; [|by apply list_elem_of_singleton in Hh].
  exfalso. specialize (Hnew h Hh).
  assert (Ht : t ∈ h :: tl) by (rewrite Hperm, elem_of_app; right; left).
  apply elem_of_cons in Ht as [->|Ht]; [lia|].
  apply StronglySorted_inv in Hsorted as [_ Hall].
  eapply Forall_forall in Hall; [|done]. unfold newest_first in Hall. lia.
Qed.

(** X16: when a request in plain text (ASCII without the NUL character)
    adds a row at a time later than the date of every stored row, the
    recent-transactions report that follows starts with the line of that
    row, whose description is the text of the request. *)
Theorem X16_recorded_row_heads_recent self text w t :
  Text.is_plain text = true ->
  database w = Reachable ->
  (forall r, r ∈ transactions w -> timestamp (date r) < timestamp (now w)) ->
  transactions (process_natural_language self text w).2 = transactions w ++ [t] ->
  description t = text /\
  exists more,
    get_recent_transactions (process_natural_language self text w).2
    = (Return (recent_header +:+ recent_line t +:+ more),
       (process_natural_language self text w).2).
Proof.
  intros _ Hdb Hnew Hrows.
  set (w' := (process_natural_language self text w).2) in *.
  assert (Ht : date t = now w /\ description t = text /\ database w' = Reachable).
  { destruct (process_rows self text w)
      as [Hw|(x & c & _ & _ & _ & [Hw|Hw])]; fold w' in Hw; rewrite Hw in Hrows.
    - rewrite <- (app_nil_r (transactions w)) in Hrows at 1.
      by apply app_inv_head in Hrows.
    - simpl in Hrows. apply app_inv_head in Hrows. injection Hrows as <-.
      by rewrite Hw.
    - simpl in Hrows. apply app_inv_head in Hrows. injection Hrows as <-.
      by rewrite Hw. }
  destruct Ht as (Hdate & Hdesc & Hdb').
  split; [done|].
  rewrite (get_recent_transactions_reachable w' Hdb'). unfold recent_query.
  destruct (newest_row_first (transactions w) (merge_sort newest_first (transactions w')) t)
    as [tl Htl].
  - rewrite merge_sort_Permutation. by rewrite Hrows.
  - apply StronglySorted_merge_sort; apply _.
  - intros r Hr. rewrite Hdate. by apply Hnew.
  - rewrite Htl. cbn [take]. rewrite fmap_cons, concat_lines_cons. by eexists.
Qed.

Lemma X16_witness :
  description (Transaction 8 (on_day 8 9) "I spent $19.99 on lunch" "Expenses:Food"
                           "Assets:Cash" 1999 true)
  = "I spent $19.99 on lunch" /\
  exists more,
    get_recent_transactions
      (process_natural_language keywords_only "I spent $19.99 on lunch" w_sample).2
    = (Return (recent_header +:+
               recent_line (Transaction 8 (on_day 8 9) "I spent $19.99 on lunch"
                              "Expenses:Food" "Assets:Cash" 1999 true) +:+ more),
       (process_natural_language keywords_only "I spent $19.99 on lunch" w_sample).2).
Proof.
  apply (X16_recorded_row_heads_recent keywords_only "I spent $19.99 on lunch"
           w_sample).
  - reflexivity.
  - reflexivity.
  - apply Forall_forall. apply (bool_decide_unpack _). by vm_compute.
  - reflexivity.
Defined.

(** ** Sessions *)

(** X17: over a whole session the table only grows at its end: the rows
    stored before are still there, in place and unchanged, and the session
    adds at most one row per request. *)
Theorem X17_session_appends self session w :
  exists new,
    transactions (serve self session w) = transactions w ++ new /\
    (length new <= length session)%nat.
Proof.
  revert w. induction session as [|r session IH]; intros w.
  - exists []. by rewrite app_nil_r.
  - simpl. unfold chat_with_accountant.
    set (w1 := World (backend_then r) (transactions w) (next_id w) (time_then r)).
    destruct (process_adds self (message r) w1) as (new1 & (Hrows & _) & _ & Hlen).
    destruct (IH (process_natural_language self (message r) w1).2)
      as (new2 & Hrows2 & Hlen2).
    exists (new1 ++ new2). rewrite Hrows2, Hrows. simpl.
    rewrite app_assoc, length_app. split; [done|lia].
Qed.

(** ** Printing an amount and reading it back *)











(** ** Start-up *)

(** X19: [init_db] can be run at every start: a second run changes nothing
    and returns what the first returned, rows already in the table are
    kept, a missing table is created empty when the backend is reachable,
    and without [DATABASE_URL] the function returns normally and touches
    nothing. *)
Theorem X19_init_db_is_safe_to_repeat s :
  init_db (init_db s).2 = init_db s /\
  (forall rows, table s = Some rows -> table (init_db s).2 = Some rows) /\
  (server_backend s = Reachable ->
   (init_db s).1 = Return tt /\ table (init_db s).2 = Some (default [] (table s))) /\
  (server_backend s = NoDatabaseUrl -> init_db s = (Return tt, s)).
Proof.
  unfold init_db. destruct s as [[] tbl]; simpl; repeat split; try done.
  - by intros rows ->.
Qed.

Lemma X19_witness :
  table (init_db (Server Reachable
                    (Some [Transaction 1 t0 "lunch $5" "Expenses:Food"
                                       "Assets:Cash" 500 true]))).2
  = Some [Transaction 1 t0 "lunch $5" "Expenses:Food" "Assets:Cash" 500 true].
Proof.
  apply (proj1 (proj2 (X19_init_db_is_safe_to_repeat _))). reflexivity.
Defined.

(** ** Requests that are always answered *)

(** A handler that raises behind a reachable backend was refused its amount. *)
Lemma handler_raise_reachable intent text w e w' :
  database w = Reachable ->
  handler_of intent text w = (Raise e, w') ->
  exists x, extract_amount text = Some x /\ Num.numeric_10_2 x = None.
Proof.
  intros Hdb H. destruct intent; simpl in H.
  - rewrite record_expense_spec, Hdb in H.
    destruct (extract_amount text) as [x|]; [|done]. exists x. split; [done|].
    by destruct (Num.numeric_10_2 x).
  - rewrite record_income_spec, Hdb in H.
    destruct (extract_amount text) as [x|]; [|done]. exists x. split; [done|].
    by destruct (Num.numeric_10_2 x).
  - destruct (handle_query_reachable text w Hdb) as [report Hr].
    by rewrite Hr in H.
  - done.
Qed.

(** X20: behind a reachable backend, a message in plain text (ASCII without
    the NUL character) without an amount, or with an amount written with at
    most two decimals that the column accepts (below 100 million), always
    gets a reply: the router returns a text and raises nothing, whatever the
    model answers or however its call fails. *)
Theorem X20_reachable_backend_always_replies self text w :
  Text.is_plain text = true ->
  database w = Reachable ->
  (forall x, extract_amount text = Some x ->
             (scale x <= 2)%nat /\ Num.numeric_10_2 x <> None) ->
  exists reply w', process_natural_language self text w = (Return reply, w').
Proof.
  intros _ Hdb Hok.
  assert (Hh : exists i, process_natural_language self text w = handler_of i text w).
  { destruct (process_is_handler self text w) as [->|[_ ->]]; eauto. }
  destruct Hh as [i ->].
  destruct (handler_of i text w) as [[reply|e] w'] eqn:Hh; [by eauto|].
  destruct (handler_raise_reachable _ _ _ _ _ Hdb Hh) as (x & Hx & Hnone).
  by apply Hok in Hx as [_ Hx].
Qed.

Lemma X20_witness :
  exists reply w',
    process_natural_language (answering "EXPENSE: cab") "the taxi was $12.50" w_sample
    = (Return reply, w').
Proof.
  apply (X20_reachable_backend_always_replies (answering "EXPENSE: cab")
           "the taxi was $12.50" w_sample).
  - reflexivity.
  - reflexivity.
  - intros x Hx. vm_compute in Hx. injection Hx as <-.
    split; [simpl; lia|by vm_compute].
Defined.
